(** * TripleCaptain: squad optimizer and multi-gameweek transfer planner

    A shallow embedding of [backend/app/optimization/squad_optimizer.py]
    and [backend/app/optimization/transfer_planner.py], followed by the
    properties of the specification that concern them.

    Conventions of the embedding:
    - a Python [int] is a [Z]; a Python [float] is an exact rational [Q]
      (the properties below are about selection, ordering and counting,
      not about rounding error);
    - a Python [set] of ids is a [gset Z]; a Python [dict], whose
      iteration order is its insertion order, is an association list
      with unique keys ([dict]);
    - a Python function that may raise returns an [outcome]. *)

From stdpp Require Import base gmap list strings pretty sorting.
From Stdlib Require Import QArith Qround.

Local Open Scope Z_scope.

(** ** Python built-ins used by the two modules *)

Module Py.

(** An exception: its class name and its message. *)
Record exn := mk_exn { exn_class : string; exn_msg : string }.

Definition ValueError (msg : string) : exn := mk_exn "ValueError" msg.
Definition KeyError (key : string) : exn := mk_exn "KeyError" key.

(** The result of a call: a returned value or a raised exception. *)
Inductive outcome (A : Type) : Type :=
| Returned (a : A)
| Raised (e : exn).
Arguments Returned {A} a.
Arguments Raised {A} e.

#[export] Instance outcome_ret : MRet outcome := fun A a => Returned a.
#[export] Instance outcome_bind : MBind outcome := fun A B k m =>
  match m with
  | Returned a => k a
  | Raised e => Raised e
  end.

(** Comparison of floats: [x < y] and [x > y]. *)
Definition Qltb (x y : Q) : bool := negb (Qle_bool y x).
Definition Qgtb (x y : Q) : bool := Qltb y x.

(** [sum(xs)]: a left fold from 0. *)
Definition sum (xs : list Q) : Q := fold_left Qplus xs 0%Q.

Definition sumZ (xs : list Z) : Z := fold_left Z.add xs 0.

(** [sorted(xs, key=key, reverse=True)]: the stable sort by descending
    key; elements with equal keys keep their original order. *)
Fixpoint insert_desc {A} (key : A -> Q) (x : A) (l : list A) : list A :=
  match l with
  | [] => [x]
  | y :: l' =>
      if Qltb (key x) (key y) then y :: insert_desc key x l'
      else x :: y :: l'
  end.

Definition sorted_desc {A} (key : A -> Q) (l : list A) : list A :=
  foldr (insert_desc key) [] l.

(** [max(x :: xs, key=key)]: the first element with the largest key. *)
Definition max_by {A} (key : A -> Q) (x : A) (xs : list A) : A :=
  fold_left (fun best y => if Qgtb (key y) (key best) then y else best)
            xs x.

(** [round(x, ndigits)]: to the nearest multiple of [10^-ndigits], a
    tie going to the even neighbour. *)
Definition round_half_even (x : Q) : Z :=
  let f := Qfloor x in
  match Qcompare (x - inject_Z f) (1 # 2) with
  | Lt => f
  | Gt => f + 1
  | Eq => if Z.even f then f else f + 1
  end.

Definition round (x : Q) (ndigits : nat) : Q :=
  let s := inject_Z (10 ^ Z.of_nat ndigits) in
  Qred (inject_Z (round_half_even (x * s)) / s).

(** *** Insertion-ordered dictionaries *)

Definition dict (K V : Type) : Type := list (K * V).

Section Dict.
Context {K V : Type} `{EqDecision K}.

Fixpoint getitem (d : dict K V) (k : K) : option V :=
  match d with
  | [] => None
  | (k', v) :: d' => if decide (k = k') then Some v else getitem d' k
  end.

Definition contains (d : dict K V) (k : K) : bool :=
  bool_decide (is_Some (getitem d k)).

(** [d[k] = v]: overwrite in place, or append a new key. *)
Fixpoint setitem (d : dict K V) (k : K) (v : V) : dict K V :=
  match d with
  | [] => [(k, v)]
  | (k', v') :: d' =>
      if decide (k = k') then (k', v) :: d'
      else (k', v') :: setitem d' k v
  end.

Definition keys (d : dict K V) : list K := fst <$> d.
Definition values (d : dict K V) : list V := snd <$> d.

(** [d.get(k, dflt)] *)
Definition get (d : dict K V) (k : K) (dflt : V) : V :=
  default dflt (getitem d k).

(** [{k(x): v(x) for x in xs}] *)
Definition comprehension {A} (k : A -> K) (v : A -> V) (xs : list A)
  : dict K V :=
  fold_left (fun d x => setitem d (k x) (v x)) xs [].
End Dict.

End Py.

Import Py.

(** [d[k]] for a key that the caller has put in [d] beforehand. *)
Definition item {K V} `{EqDecision K} `{Inhabited V}
    (d : dict K V) (k : K) : V :=
  default inhabitant (getitem d k).

(** ** The integer-programming interface ([pulp])

    The optimizer states its problem through [pulp] and hands it to a
    solver object.  This part is the vocabulary of that library as the
    code uses it: binary variables, affine expressions, constraints, a
    problem, the status codes, and what it means for a 0/1 valuation to
    satisfy a problem. *)

Module pulp.

(** The three families of decision variables; a variable is named
    [squad_<id>], [starting_<id>] or [captain_<id>]. *)
Inductive VarFamily := squad_ | starting_ | captain_.

Record LpVariable := LpVar { var_family : VarFamily; var_key : Z }.

#[export] Instance VarFamily_eq_dec : EqDecision VarFamily.
Proof. solve_decision. Defined.
#[export] Instance LpVariable_eq_dec : EqDecision LpVariable.
Proof. solve_decision. Defined.
#[export] Instance LpVariable_inhabited : Inhabited LpVariable :=
  populate (LpVar squad_ 0).

(** An affine expression without constant: a list of [coefficient * variable]. *)
Definition LpAffineExpression : Type := list (Q * LpVariable).

Inductive LpSense := LpConstraintLE | LpConstraintEQ | LpConstraintGE.

Record LpConstraint := mk_constraint
  { lhs : LpAffineExpression; sense : LpSense; rhs : Q }.

Record LpProblem := mk_problem
  { objective : LpAffineExpression; constraints : list LpConstraint }.

Inductive LpStatusCode :=
| LpStatusNotSolved
| LpStatusOptimal
| LpStatusInfeasible
| LpStatusUnbounded
| LpStatusUndefined.

#[export] Instance LpStatusCode_eq_dec : EqDecision LpStatusCode.
Proof. solve_decision. Defined.

(** [pulp.LpStatus[code]] *)
Definition LpStatus (code : LpStatusCode) : string :=
  match code with
  | LpStatusNotSolved => "Not Solved"
  | LpStatusOptimal => "Optimal"
  | LpStatusInfeasible => "Infeasible"
  | LpStatusUnbounded => "Unbounded"
  | LpStatusUndefined => "Undefined"
  end.

(** [pulp.lpSum] of a list of variables and of a list of expressions. *)
Definition lpSum_vars (xs : list LpVariable) : LpAffineExpression :=
  (fun x => (1%Q, x)) <$> xs.

Definition lpSum (es : list LpAffineExpression) : LpAffineExpression :=
  concat es.

(** [e <= b], [e == b], [e >= b] *)
Definition le_ (e : LpAffineExpression) (b : Q) : LpConstraint :=
  mk_constraint e LpConstraintLE b.
Definition eq_ (e : LpAffineExpression) (b : Q) : LpConstraint :=
  mk_constraint e LpConstraintEQ b.
Definition ge_ (e : LpAffineExpression) (b : Q) : LpConstraint :=
  mk_constraint e LpConstraintGE b.

(** [x <= y] between two variables: [x - y <= 0]. *)
Definition var_le (x y : LpVariable) : LpConstraint :=
  le_ [(1%Q, x); ((-1)%Q, y)] 0%Q.

(** A solver: from a problem to a status and the [varValue] of every
    variable. *)
Definition Solver : Type := LpProblem -> LpStatusCode * (LpVariable -> Q).

(** *** Meaning of a problem *)

Definition eval (v : LpVariable -> Q) (e : LpAffineExpression) : Q :=
  foldr (fun t acc => (t.1 * v t.2 + acc)%Q) 0%Q e.

Definition holds (v : LpVariable -> Q) (c : LpConstraint) : bool :=
  match sense c with
  | LpConstraintLE => Qle_bool (eval v (lhs c)) (rhs c)
  | LpConstraintEQ => Qeq_bool (eval v (lhs c)) (rhs c)
  | LpConstraintGE => Qle_bool (rhs c) (eval v (lhs c))
  end.

(** Every variable of category [Binary] takes the value 0 or 1. *)
Definition binary (v : LpVariable -> Q) : Prop :=
  forall x, v x = 0%Q \/ v x = 1%Q.

Definition feasible (P : LpProblem) (v : LpVariable -> Q) : Prop :=
  binary v /\ forallb (holds v) (constraints P) = true.

End pulp.

(** ** [squad_optimizer.py] *)

Module squad_optimizer.
Import pulp.

Inductive Position := GOALKEEPER | DEFENDER | MIDFIELDER | FORWARD.

Definition Position_value (p : Position) : Z :=
  match p with
  | GOALKEEPER => 1
  | DEFENDER => 2
  | MIDFIELDER => 3
  | FORWARD => 4
  end.

(** [PlayerData]; the field [id] is [pid] here. *)
Record PlayerData := mk_player
  { pid : Z;
    position : Z;
    team_id : Z;
    price : Q;
    predicted_points : Q;
    start_probability : Q;
    name : string;
    variance : Q;
    ceiling_points : Q;
    floor_points : Q }.

(** The [==] of the dataclass: field by field. *)
Definition PlayerData_eqb (p q : PlayerData) : bool :=
  bool_decide (pid p = pid q) && bool_decide (position p = position q)
  && bool_decide (team_id p = team_id q) && Qeq_bool (price p) (price q)
  && Qeq_bool (predicted_points p) (predicted_points q)
  && Qeq_bool (start_probability p) (start_probability q)
  && bool_decide (name p = name q) && Qeq_bool (variance p) (variance q)
  && Qeq_bool (ceiling_points p) (ceiling_points q)
  && Qeq_bool (floor_points p) (floor_points q).

Record OptimizationConstraints := mk_constraints
  { budget : Q;
    squad_size : Z;
    starting_xi_size : Z;
    max_players_per_team : Z;
    formation : option string;
    excluded_players : option (list Z);
    required_players : option (list Z);
    risk_tolerance : Q }.

Record FormationConstraints := mk_formation
  { goalkeepers : Z;
    defenders : Z * Z;
    midfielders : Z * Z;
    forwards : Z * Z }.

Definition FORMATION_CONSTRAINTS : dict string FormationConstraints :=
  [ ("3-4-3", mk_formation 1 (3, 3) (4, 4) (3, 3));
    ("3-5-2", mk_formation 1 (3, 3) (5, 5) (2, 2));
    ("4-3-3", mk_formation 1 (4, 4) (3, 3) (3, 3));
    ("4-4-2", mk_formation 1 (4, 4) (4, 4) (2, 2));
    ("4-5-1", mk_formation 1 (4, 4) (5, 5) (1, 1));
    ("5-3-2", mk_formation 1 (5, 5) (3, 3) (2, 2));
    ("5-4-1", mk_formation 1 (5, 5) (4, 4) (1, 1)) ].

(** The three dictionaries of decision variables, keyed by player id. *)
Definition make_vars (fam : VarFamily) (players : list PlayerData)
  : dict Z LpVariable :=
  comprehension pid (fun player => LpVar fam (pid player)) players.

Definition _group_players_by_position (players : list PlayerData)
  : dict Z (list PlayerData) :=
  fold_left
    (fun grouped player =>
       match getitem grouped (position player) with
       | Some l => setitem grouped (position player) (l ++ [player])
       | None => grouped
       end)
    players
    [(1, []); (2, []); (3, []); (4, [])].

(** The grouping by team built in [_add_squad_constraints]. *)
Definition group_players_by_team (players : list PlayerData)
  : dict Z (list PlayerData) :=
  fold_left
    (fun by_team player =>
       let by_team' :=
         if contains by_team (team_id player) then by_team
         else setitem by_team (team_id player) [] in
       setitem by_team' (team_id player)
               (item by_team' (team_id player) ++ [player]))
    players [].

(** [[vars[p.id] for p in group]] *)
Definition vars_of (vars : dict Z LpVariable) (group : list PlayerData)
  : list LpVariable :=
  (fun p => item vars (pid p)) <$> group.

(** The truth value of an optional list: [None] and [[]] are false. *)
Definition truthy {A} (o : option (list A)) : list A := default [] o.

(** The truth value of [constraints.formation and constraints.formation
    in FORMATION_CONSTRAINTS]: the entry of the catalog, if any. *)
Definition chosen_formation (c : OptimizationConstraints)
  : option FormationConstraints :=
  match formation c with
  | Some f => if decide (f = "") then None else getitem FORMATION_CONSTRAINTS f
  | None => None
  end.

Definition _add_squad_constraints
    (players : list PlayerData) (c : OptimizationConstraints)
    (squad_vars starting_vars captain_vars : dict Z LpVariable)
  : list LpConstraint :=
  (* Budget constraint *)
  let budget_terms :=
    (fun player => (price player, item squad_vars (pid player))) <$> players in
  [ le_ budget_terms (budget c);
  (* Squad size, starting XI size, exactly one captain *)
    eq_ (lpSum_vars (values squad_vars)) (inject_Z (squad_size c));
    eq_ (lpSum_vars (values starting_vars)) (inject_Z (starting_xi_size c));
    eq_ (lpSum_vars (values captain_vars)) 1%Q ]
  (* Linking constraints *)
  ++ concat
       ((fun player =>
           [ var_le (item starting_vars (pid player))
                    (item squad_vars (pid player));
             var_le (item captain_vars (pid player))
                    (item starting_vars (pid player)) ]) <$> players)
  (* Position constraints for squad *)
  ++ (let players_by_position := _group_players_by_position players in
      let by_pos (p : Position) := item players_by_position (Position_value p) in
      (if decide (squad_size c = 15) then
         [ eq_ (lpSum_vars (vars_of squad_vars (by_pos GOALKEEPER))) 2%Q;
           eq_ (lpSum_vars (vars_of squad_vars (by_pos DEFENDER))) 5%Q;
           eq_ (lpSum_vars (vars_of squad_vars (by_pos MIDFIELDER))) 5%Q;
           eq_ (lpSum_vars (vars_of squad_vars (by_pos FORWARD))) 3%Q ]
       else [])
      (* Formation constraints for starting XI *)
      ++ (let gk_starting := lpSum_vars (vars_of starting_vars (by_pos GOALKEEPER)) in
          let def_starting := lpSum_vars (vars_of starting_vars (by_pos DEFENDER)) in
          let mid_starting := lpSum_vars (vars_of starting_vars (by_pos MIDFIELDER)) in
          let fwd_starting := lpSum_vars (vars_of starting_vars (by_pos FORWARD)) in
          match chosen_formation c with
          | Some formation_constraint =>
              [ eq_ gk_starting (inject_Z (goalkeepers formation_constraint));
                ge_ def_starting (inject_Z (defenders formation_constraint).1);
                le_ def_starting (inject_Z (defenders formation_constraint).2);
                ge_ mid_starting (inject_Z (midfielders formation_constraint).1);
                le_ mid_starting (inject_Z (midfielders formation_constraint).2);
                ge_ fwd_starting (inject_Z (forwards formation_constraint).1);
                le_ fwd_starting (inject_Z (forwards formation_constraint).2) ]
          | None =>
              [ eq_ gk_starting 1%Q;
                ge_ def_starting 3%Q; le_ def_starting 5%Q;
                ge_ mid_starting 2%Q; le_ mid_starting 5%Q;
                ge_ fwd_starting 1%Q; le_ fwd_starting 3%Q ]
          end))
  (* Team constraints *)
  ++ ((fun team_players =>
         le_ (lpSum_vars (vars_of squad_vars team_players))
             (inject_Z (max_players_per_team c)))
        <$> values (group_players_by_team players))
  (* Excluded players *)
  ++ omap (fun player_id =>
             if contains squad_vars player_id
             then Some (eq_ [(1%Q, item squad_vars player_id)] 0%Q)
             else None)
          (truthy (excluded_players c))
  (* Required players *)
  ++ omap (fun player_id =>
             if contains squad_vars player_id
             then Some (eq_ [(1%Q, item squad_vars player_id)] 1%Q)
             else None)
          (truthy (required_players c)).

(** The objective of [optimize_squad]: the terms appended per player. *)
Definition objective_terms
    (players : list PlayerData) (c : OptimizationConstraints)
    (starting_vars captain_vars : dict Z LpVariable)
  : LpAffineExpression :=
  lpSum
    ((fun player =>
        let base_points := (predicted_points player * start_probability player)%Q in
        let captain_bonus := (predicted_points player * start_probability player)%Q in
        [ (base_points, item starting_vars (pid player));
          (captain_bonus, item captain_vars (pid player)) ]
        ++ (if Qltb (risk_tolerance c) (1 # 2) then
              let risk_penalty :=
                (variance player * ((1 # 2) - risk_tolerance c) * 2)%Q in
              [ ((- risk_penalty)%Q, item starting_vars (pid player)) ]
            else if Qgtb (risk_tolerance c) (1 # 2) then
              let risk_bonus :=
                (variance player * (risk_tolerance c - (1 # 2)) * 2)%Q in
              [ (risk_bonus, item starting_vars (pid player)) ]
            else []))
       <$> players).

(** The problem [prob] as it stands when [prob.solve] is called. *)
Definition build_problem
    (players : list PlayerData) (c : OptimizationConstraints) : LpProblem :=
  let squad_vars := make_vars squad_ players in
  let starting_vars := make_vars starting_ players in
  let captain_vars := make_vars captain_ players in
  mk_problem
    (objective_terms players c starting_vars captain_vars)
    (_add_squad_constraints players c squad_vars starting_vars captain_vars).

(** The dictionary made by [_player_to_dict]. *)
Record PlayerDict := mk_player_dict
  { d_player_id : Z;
    d_name : string;
    d_position : Z;
    d_team_id : Z;
    d_price : Q;
    d_predicted_points : Q;
    d_start_probability : Q;
    d_is_starter : bool;
    d_is_captain : bool;
    d_variance : Q }.

Definition _player_to_dict (player : PlayerData) (is_starter is_captain : bool)
  : PlayerDict :=
  {| d_player_id := pid player;
     d_name := name player;
     d_position := position player;
     d_team_id := team_id player;
     d_price := price player;
     d_predicted_points := round (predicted_points player) 1;
     d_start_probability := round (start_probability player) 2;
     d_is_starter := is_starter;
     d_is_captain := is_captain;
     d_variance := round (variance player) 2 |}.

(** The dictionary returned by [optimize_squad]. *)
Record SquadResult := mk_result
  { r_squad : list PlayerDict;
    r_starting_xi : list PlayerDict;
    r_bench : list PlayerDict;
    r_formation : string;
    r_total_cost : Q;
    r_predicted_points : Q;
    r_captain_id : option Z;
    r_alternatives : list (dict string string) }.

(** [position_counts[player.position] += 1] over the starters; a position
    that is not a key raises [KeyError]. *)
Fixpoint count_positions (starting_players : list PlayerData)
    (position_counts : dict Z Z) : outcome (dict Z Z) :=
  match starting_players with
  | [] => Returned position_counts
  | player :: rest =>
      match getitem position_counts (position player) with
      | Some n =>
          count_positions rest
            (setitem position_counts (position player) (n + 1))
      | None => Raised (KeyError (pretty (position player)))
      end
  end.

Definition _determine_formation (starting_players : list PlayerData)
  : outcome string :=
  position_counts ← count_positions starting_players
                      [(1, 0); (2, 0); (3, 0); (4, 0)];
  let def_count := item position_counts 2 in
  let mid_count := item position_counts 3 in
  let fwd_count := item position_counts 4 in
  mret (pretty def_count +:+ "-" +:+ pretty mid_count +:+ "-"
        +:+ pretty fwd_count).

Definition _generate_alternatives
    (players : list PlayerData) (c : OptimizationConstraints)
    (num_alternatives : Z) : list (dict string string) :=
  [].

(** The running variables of the loop of [_extract_solution]. *)
Record Extracted := mk_extracted
  { squad_players : list PlayerData;
    starting_players : list PlayerData;
    bench_players : list PlayerData;
    captain_id : option Z;
    total_cost : Q;
    total_predicted_points : Q }.

Definition extract_step (varValue : LpVariable -> Q)
    (squad_vars starting_vars captain_vars : dict Z LpVariable)
    (acc : Extracted) (player : PlayerData) : Extracted :=
  let player_id := pid player in
  let points := (predicted_points player * start_probability player)%Q in
  if Qeq_bool (varValue (item squad_vars player_id)) 1 then
    if Qeq_bool (varValue (item starting_vars player_id)) 1 then
      if Qeq_bool (varValue (item captain_vars player_id)) 1 then
        mk_extracted (squad_players acc ++ [player])
          (starting_players acc ++ [player]) (bench_players acc)
          (Some player_id) (total_cost acc + price player)%Q
          (total_predicted_points acc + points + points)%Q
      else
        mk_extracted (squad_players acc ++ [player])
          (starting_players acc ++ [player]) (bench_players acc)
          (captain_id acc) (total_cost acc + price player)%Q
          (total_predicted_points acc + points)%Q
    else
      mk_extracted (squad_players acc ++ [player])
        (starting_players acc) (bench_players acc ++ [player])
        (captain_id acc) (total_cost acc + price player)%Q
        (total_predicted_points acc)
  else acc.

Definition _extract_solution
    (players : list PlayerData) (varValue : LpVariable -> Q)
    (squad_vars starting_vars captain_vars : dict Z LpVariable)
    (c : OptimizationConstraints) : outcome SquadResult :=
  let x := fold_left (extract_step varValue squad_vars starting_vars captain_vars)
                     players (mk_extracted [] [] [] None 0%Q 0%Q) in
  formation ← _determine_formation (starting_players x);
  let alternatives := _generate_alternatives players c 3 in
  let is_captain (p : PlayerData) := bool_decide (Some (pid p) = captain_id x) in
  mret
    {| r_squad :=
         (fun p => _player_to_dict p
                     (existsb (PlayerData_eqb p) (starting_players x))
                     (is_captain p)) <$> squad_players x;
       r_starting_xi :=
         (fun p => _player_to_dict p true (is_captain p)) <$> starting_players x;
       r_bench := (fun p => _player_to_dict p false false) <$> bench_players x;
       r_formation := formation;
       r_total_cost := round (total_cost x) 1;
       r_predicted_points := round (total_predicted_points x) 1;
       r_captain_id := captain_id x;
       r_alternatives := take 3 alternatives |}.

(** The constraints that [find_best_formation] builds for one formation. *)
Definition formation_constraints
    (c : OptimizationConstraints) (formation_name : string)
  : OptimizationConstraints :=
  {| budget := budget c;
     squad_size := squad_size c;
     starting_xi_size := starting_xi_size c;
     max_players_per_team := max_players_per_team c;
     formation := Some formation_name;
     excluded_players := excluded_players c;
     required_players := required_players c;
     risk_tolerance := risk_tolerance c |}.

Section SquadOptimizer.
(** [self.solver] *)
Variable solver : Solver.

Definition optimize_squad
    (players : list PlayerData) (c : OptimizationConstraints)
  : outcome SquadResult :=
  let squad_vars := make_vars squad_ players in
  let starting_vars := make_vars starting_ players in
  let captain_vars := make_vars captain_ players in
  let prob := build_problem players c in
  (* Solve the problem *)
  let '(status, varValue) := solver prob in
  (* Extract solution *)
  if decide (status = LpStatusOptimal) then
    _extract_solution players varValue squad_vars starting_vars captain_vars c
  else
    Raised (ValueError ("Optimization failed with status: " +:+ LpStatus status)).

(** The running variables of the loop of [find_best_formation]. *)
Record FormationSearch := mk_search
  { best_formation : option string;
    best_points : Q;
    best_result : option SquadResult;
    formation_results : dict string SquadResult }.

Definition formation_step
    (players : list PlayerData) (c : OptimizationConstraints)
    (s : FormationSearch) (formation_name : string) : FormationSearch :=
  match optimize_squad players (formation_constraints c formation_name) with
  | Returned result =>
      let results := setitem (formation_results s) formation_name result in
      if Qgtb (r_predicted_points result) (best_points s) then
        mk_search (Some formation_name) (r_predicted_points result)
                  (Some result) results
      else
        mk_search (best_formation s) (best_points s) (best_result s) results
  | Raised _ => s
  end.

(** The dictionary returned by [find_best_formation]; [best_points] is
    not part of it. *)
Definition find_best_formation
    (players : list PlayerData) (c : OptimizationConstraints)
  : FormationSearch :=
  fold_left (formation_step players c) (keys FORMATION_CONSTRAINTS)
            (mk_search None 0%Q None []).

End SquadOptimizer.

(** An entry of [captain_options]. *)
Record CaptainOption := mk_captain_option
  { o_player_id : Z;
    o_name : string;
    o_position : Z;
    o_expected_points : Q;
    o_risk_adjusted_points : Q;
    o_start_probability : Q;
    o_base_points : Q;
    o_variance : Q }.

(** The two shapes of the dictionary returned by
    [optimize_captain_choice]. *)
Inductive CaptainChoice :=
| CaptainError (error : string)
| CaptainRanking (recommended_captain : CaptainOption)
                 (top_options all_options : list CaptainOption).

Definition captain_option (player : PlayerData) : CaptainOption :=
  let expected_points :=
    (predicted_points player * start_probability player * 2)%Q in
  let risk_adjustment := (variance player * (1 # 10))%Q in
  let adjusted_points := (expected_points - risk_adjustment)%Q in
  {| o_player_id := pid player;
     o_name := name player;
     o_position := position player;
     o_expected_points := round expected_points 1;
     o_risk_adjusted_points := round adjusted_points 1;
     o_start_probability := round (start_probability player) 2;
     o_base_points := round (predicted_points player) 1;
     o_variance := round (variance player) 2 |}.

Definition optimize_captain_choice
    (players : list PlayerData) (current_squad : list Z)
  : outcome CaptainChoice :=
  let squad_players :=
    List.filter (fun p => bool_decide (pid p ∈ current_squad)) players in
  match squad_players with
  | [] => Returned (CaptainError "No players in current squad")
  | _ :: _ =>
      let captain_options :=
        sorted_desc o_risk_adjusted_points (captain_option <$> squad_players) in
      match captain_options with
      | best :: _ =>
          Returned (CaptainRanking best (take 5 captain_options) captain_options)
      | [] => Raised (mk_exn "IndexError" "list index out of range")
      end
  end.

End squad_optimizer.

(** ** [transfer_planner.py] *)

Module transfer_planner.
Import squad_optimizer.

Record TransferOption := mk_transfer
  { player_out_id : Z;
    player_in_id : Z;
    cost : Z;
    expected_gain : Q;
    price_change : Q;
    gameweek : Z }.

Record GameweekPlan := mk_plan
  { gp_gameweek : Z;
    transfers : list TransferOption;
    expected_points : Q;
    gp_squad_value : Q;
    gp_free_transfers : Z;
    total_transfer_cost : Z }.

Record ChipStrategy := mk_chip
  { chip_type : string;
    recommended_gameweek : option Z;
    expected_benefit : Q;
    confidence : Q }.

(** The dictionary [current_state] threaded through [plan_transfers]. *)
Record State := mk_state
  { st_squad : list PlayerData;
    st_gameweek : Z;
    st_free_transfers : Z;
    st_squad_value : Q;
    st_chips_used : list string }.

(** [len(xs)] as a Python integer. *)
Definition len {A} (xs : list A) : Z := Z.of_nat (length xs).

Definition _find_transfer_options
    (current_squad all_players : list PlayerData) (gameweek : Z)
  : list TransferOption :=
  let squad_player_ids : gset Z := list_to_set (pid <$> current_squad) in
  let available_players :=
    List.filter (fun p => bool_decide (pid p ∉ squad_player_ids)) all_players in
  let transfer_options :=
    concat
      ((fun current_player =>
          let position_replacements :=
            List.filter
              (fun p => bool_decide (position p = position current_player))
              available_players in
          (fun replacement =>
             let points_gain :=
               (predicted_points replacement * start_probability replacement
                - predicted_points current_player
                  * start_probability current_player)%Q in
             let price_change := 0%Q in
             mk_transfer (pid current_player) (pid replacement) 4
                         points_gain price_change gameweek)
            <$> position_replacements)
         <$> current_squad) in
  sorted_desc expected_gain transfer_options.

(** The loop of [_select_transfers], with its three running variables. *)
Fixpoint select_loop (max_transfers free_transfers : Z)
    (transfer_options selected : list TransferOption)
    (used_players_out used_players_in : gset Z) : list TransferOption :=
  match transfer_options with
  | [] => selected
  | opt :: rest =>
      if decide (len selected >= max_transfers) then selected
      else if decide (player_out_id opt ∈ used_players_out
                      \/ player_in_id opt ∈ used_players_in) then
        select_loop max_transfers free_transfers rest selected
                    used_players_out used_players_in
      else
        let transfer_cost : Z :=
          if decide (len selected >= free_transfers) then 4 else 0 in
        if Qgtb (expected_gain opt) (inject_Z transfer_cost) then
          select_loop max_transfers free_transfers rest
                      (selected ++ [opt])
                      (used_players_out ∪ {[ player_out_id opt ]})
                      (used_players_in ∪ {[ player_in_id opt ]})
        else
          select_loop max_transfers free_transfers rest selected
                      used_players_out used_players_in
  end.

Definition _select_transfers
    (transfer_options : list TransferOption)
    (max_transfers free_transfers : Z) : list TransferOption :=
  match transfer_options with
  | [] => []
  | _ => select_loop max_transfers free_transfers transfer_options [] ∅ ∅
  end.

Definition _apply_transfers
    (current_squad : list PlayerData) (transfers : list TransferOption)
  : list PlayerData :=
  let new_squad := current_squad in
  (* Remove players being transferred out *)
  let players_out : gset Z := list_to_set (player_out_id <$> transfers) in
  let new_squad :=
    List.filter (fun p => bool_decide (pid p ∉ players_out)) new_squad in
  (* Add players being transferred in: nothing is done here *)
  new_squad.

Definition points_product (p : PlayerData) : Q :=
  (predicted_points p * start_probability p)%Q.

Definition _calculate_squad_expected_points (squad : list PlayerData) : Q :=
  let sorted_squad := sorted_desc predicted_points squad in
  let starting_xi := take 11 sorted_squad in
  let total_points :=
    fold_left (fun total player => (total + points_product player)%Q)
              starting_xi 0%Q in
  match starting_xi with
  | [] => total_points
  | first :: others =>
      let best_captain := max_by points_product first others in
      (total_points + points_product best_captain)%Q
  end.

Definition _plan_single_gameweek
    (current_state : State) (all_players : list PlayerData)
    (gameweek max_transfers : Z) (available_chips : dict string bool)
  : GameweekPlan :=
  let current_squad := st_squad current_state in
  let free_transfers := st_free_transfers current_state in
  let transfer_options :=
    _find_transfer_options current_squad all_players gameweek in
  let selected_transfers :=
    _select_transfers transfer_options max_transfers free_transfers in
  let new_squad := _apply_transfers current_squad selected_transfers in
  let expected_points := _calculate_squad_expected_points new_squad in
  let num_transfers := len selected_transfers in
  let transfer_cost := Z.max 0 ((num_transfers - free_transfers) * 4) in
  {| gp_gameweek := gameweek;
     transfers := selected_transfers;
     expected_points := expected_points;
     gp_squad_value := sum (price <$> new_squad);
     gp_free_transfers := free_transfers;
     total_transfer_cost := transfer_cost |}.

Definition _update_state (current_state : State) (week_plan : GameweekPlan)
  : State :=
  let new_squad := _apply_transfers (st_squad current_state) (transfers week_plan) in
  let new_free_transfers :=
    match transfers week_plan with [] => 2 | _ => 1 end in
  {| st_squad := new_squad;
     st_gameweek := gp_gameweek week_plan + 1;
     st_free_transfers := new_free_transfers;
     st_squad_value := gp_squad_value week_plan;
     st_chips_used := st_chips_used current_state |}.

Definition _find_best_triple_captain_gameweek
    (gameweek_plans : list GameweekPlan) (current_gameweek : Z)
  : ChipStrategy :=
  let '(best_gameweek, best_benefit) :=
    fold_left
      (fun '(best_gameweek, best_benefit) plan =>
         let expected_captain_points := 12%Q in
         let triple_captain_benefit := expected_captain_points in
         if Qgtb triple_captain_benefit best_benefit
         then (Some (gp_gameweek plan), triple_captain_benefit)
         else (best_gameweek, best_benefit))
      gameweek_plans (None, 0%Q) in
  mk_chip "triple_captain" best_gameweek best_benefit (8 # 10).

Definition _find_best_bench_boost_gameweek
    (gameweek_plans : list GameweekPlan) (current_gameweek : Z)
  : ChipStrategy :=
  mk_chip "bench_boost" (Some (current_gameweek + 2)) 8%Q (6 # 10).

Definition _analyze_wildcard_timing
    (gameweek_plans : list GameweekPlan) (current_gameweek planning_horizon : Z)
  : ChipStrategy :=
  let total_transfers_needed :=
    sumZ ((fun plan => len (transfers plan)) <$> gameweek_plans) in
  if decide (total_transfers_needed > planning_horizon * 2) then
    mk_chip "wildcard" (Some (current_gameweek + 1))
            (inject_Z (total_transfers_needed * 4 - 4)) (9 # 10)
  else
    mk_chip "wildcard" None 0%Q (3 # 10).

Definition _analyze_free_hit_timing
    (gameweek_plans : list GameweekPlan) (current_gameweek : Z)
  : ChipStrategy :=
  mk_chip "free_hit" None 0%Q (5 # 10).

Definition _analyze_chip_usage
    (gameweek_plans : list GameweekPlan) (available_chips : dict string bool)
    (current_gameweek planning_horizon : Z) : dict string ChipStrategy :=
  let chip_strategies : dict string ChipStrategy := [] in
  let chip_strategies :=
    if get available_chips "triple_captain" false then
      setitem chip_strategies "triple_captain"
        (_find_best_triple_captain_gameweek gameweek_plans current_gameweek)
    else chip_strategies in
  let chip_strategies :=
    if get available_chips "bench_boost" false then
      setitem chip_strategies "bench_boost"
        (_find_best_bench_boost_gameweek gameweek_plans current_gameweek)
    else chip_strategies in
  let chip_strategies :=
    if get available_chips "wildcard" false then
      setitem chip_strategies "wildcard"
        (_analyze_wildcard_timing gameweek_plans current_gameweek planning_horizon)
    else chip_strategies in
  let chip_strategies :=
    if get available_chips "free_hit" false then
      setitem chip_strategies "free_hit"
        (_analyze_free_hit_timing gameweek_plans current_gameweek)
    else chip_strategies in
  chip_strategies.

(** The dictionaries of the report. *)
Record TransferDict := mk_transfer_dict
  { td_player_out_id : Z;
    td_player_in_id : Z;
    td_cost : Z;
    td_expected_gain : Q;
    td_price_change : Q;
    td_gameweek : Z }.

Record GameweekPlanDict := mk_plan_dict
  { pd_gameweek : Z;
    pd_transfers : list TransferDict;
    pd_expected_points : Q;
    pd_squad_value : Q;
    pd_free_transfers : Z;
    pd_total_transfer_cost : Z;
    pd_net_expected_gain : Q }.

Definition _transfer_to_dict (transfer : TransferOption) : TransferDict :=
  {| td_player_out_id := player_out_id transfer;
     td_player_in_id := player_in_id transfer;
     td_cost := cost transfer;
     td_expected_gain := round (expected_gain transfer) 1;
     td_price_change := round (price_change transfer) 1;
     td_gameweek := gameweek transfer |}.

Definition _gameweek_plan_to_dict (plan : GameweekPlan) : GameweekPlanDict :=
  {| pd_gameweek := gp_gameweek plan;
     pd_transfers := _transfer_to_dict <$> transfers plan;
     pd_expected_points := round (expected_points plan) 1;
     pd_squad_value := round (gp_squad_value plan) 1;
     pd_free_transfers := gp_free_transfers plan;
     pd_total_transfer_cost := total_transfer_cost plan;
     pd_net_expected_gain :=
       round (expected_points plan - inject_Z (total_transfer_cost plan)) 1 |}.

(** The loop [for week_offset in range(planning_horizon)]: the plans that
    are appended and the state left at the end. *)
Fixpoint plan_weeks
    (all_players : list PlayerData) (max_transfers_per_week : Z)
    (available_chips : dict string bool) (current_gameweek : Z)
    (week_offsets : list Z) (current_state : State)
  : list GameweekPlan * State :=
  match week_offsets with
  | [] => ([], current_state)
  | week_offset :: rest =>
      let target_gameweek := current_gameweek + week_offset in
      let week_plan :=
        _plan_single_gameweek current_state all_players target_gameweek
                              max_transfers_per_week available_chips in
      let current_state := _update_state current_state week_plan in
      let '(plans, final_state) :=
        plan_weeks all_players max_transfers_per_week available_chips
                   current_gameweek rest current_state in
      (week_plan :: plans, final_state)
  end.

Definition initial_state (current_squad : list PlayerData) (current_gameweek : Z)
  : State :=
  {| st_squad := current_squad;
     st_gameweek := current_gameweek;
     st_free_transfers := 1;
     st_squad_value := sum (price <$> current_squad);
     st_chips_used := [] |}.

Definition default_chips : dict string bool :=
  [ ("wildcard", false); ("bench_boost", false);
    ("triple_captain", false); ("free_hit", false) ].

(** The plans of [plan_transfers] before they are turned into the report. *)
Definition planned_weeks
    (current_squad all_players : list PlayerData)
    (planning_horizon max_transfers_per_week : Z)
    (available_chips : option (dict string bool)) (current_gameweek : Z)
  : list GameweekPlan * State :=
  plan_weeks all_players max_transfers_per_week
             (default default_chips available_chips) current_gameweek
             (seqZ 0 planning_horizon)
             (initial_state current_squad current_gameweek).

(** The dictionary returned by [plan_transfers]. *)
Record TransferPlan := mk_transfer_plan
  { gameweek_plans : list GameweekPlanDict;
    chip_recommendations : dict string ChipStrategy;
    total_expected_gain : Q;
    total_transfer_costs : Z;
    planning_horizon : Z }.

Definition plan_transfers
    (current_squad all_players : list PlayerData)
    (planning_horizon max_transfers_per_week : Z)
    (available_chips : option (dict string bool)) (current_gameweek : Z)
  : TransferPlan :=
  let plans :=
    (planned_weeks current_squad all_players planning_horizon
                   max_transfers_per_week available_chips current_gameweek).1 in
  let available_chips := default default_chips available_chips in
  let chip_recommendations :=
    _analyze_chip_usage plans available_chips current_gameweek planning_horizon in
  let total_expected_gain := sum (expected_points <$> plans) in
  let total_transfer_costs := sumZ (total_transfer_cost <$> plans) in
  {| gameweek_plans := _gameweek_plan_to_dict <$> plans;
     chip_recommendations := chip_recommendations;
     total_expected_gain :=
       round (total_expected_gain - inject_Z total_transfer_costs) 1;
     total_transfer_costs := total_transfer_costs;
     planning_horizon := planning_horizon |}.

End transfer_planner.

(** ** A reference solver

    [pulp] and the solver behind it are not part of the repository; the
    methods above take the solver as an argument.  To evaluate them on
    concrete pools, this is a solver that decides a 0/1 program by
    exhaustive search: it explores the assignments of the variables in
    their order of appearance, abandons a partial assignment as soon as
    the bounds of some constraint exclude it, and keeps the first
    complete assignment of largest objective. *)

Module exhaustive.
Import pulp.

(** The variables of a problem, in order of first appearance. *)
Definition variables (P : LpProblem) : list LpVariable :=
  remove_dups (snd <$> (objective P ++ concat (lhs <$> constraints P))).

(** A partial assignment: the variables decided so far. *)
Definition assignment : Type := list (LpVariable * bool).

Fixpoint assigned (a : assignment) (x : LpVariable) : option bool :=
  match a with
  | [] => None
  | (y, b) :: a' => if decide (x = y) then Some b else assigned a' x
  end.

(** The [varValue]s of an assignment; an undecided variable counts as 0. *)
Definition valuation (a : assignment) : LpVariable -> Q :=
  fun x => match assigned a x with Some true => 1%Q | _ => 0%Q end.

Definition Qmin0 (c : Q) : Q := if Qle_bool c 0 then c else 0%Q.
Definition Qmax0 (c : Q) : Q := if Qle_bool c 0 then 0%Q else c.

(** The least and the largest value an expression can still take. *)
Fixpoint lower (a : assignment) (e : LpAffineExpression) : Q :=
  match e with
  | [] => 0%Q
  | (c, x) :: e' =>
      (match assigned a x with
       | Some true => c
       | Some false => 0
       | None => Qmin0 c
       end + lower a e')%Q
  end.

Fixpoint upper (a : assignment) (e : LpAffineExpression) : Q :=
  match e with
  | [] => 0%Q
  | (c, x) :: e' =>
      (match assigned a x with
       | Some true => c
       | Some false => 0
       | None => Qmax0 c
       end + upper a e')%Q
  end.

Definition viable (a : assignment) (c : LpConstraint) : bool :=
  match sense c with
  | LpConstraintLE => Qle_bool (lower a (lhs c)) (rhs c)
  | LpConstraintGE => Qle_bool (rhs c) (upper a (lhs c))
  | LpConstraintEQ =>
      Qle_bool (lower a (lhs c)) (rhs c) && Qle_bool (rhs c) (upper a (lhs c))
  end.

(** All complete assignments of [todo] above [a] that no constraint
    excludes. *)
Fixpoint search (cs : list LpConstraint) (todo : list LpVariable)
    (a : assignment) : list assignment :=
  if forallb (viable a) cs then
    match todo with
    | [] => [a]
    | x :: todo' =>
        search cs todo' ((x, true) :: a) ++ search cs todo' ((x, false) :: a)
    end
  else [].

Definition solve : Solver := fun P =>
  match search (constraints P) (variables P) [] with
  | [] => (LpStatusInfeasible, fun _ => 0%Q)
  | a :: others =>
      (LpStatusOptimal,
       valuation (max_by (fun a => eval (valuation a) (objective P)) a others))
  end.

End exhaustive.

(** ** Wordings of the specification that the code is compared with *)

Module spec.
Import squad_optimizer transfer_planner.

(** The period score as the specification words it: the sum of
    predicted_points · start_probability over the eleven members ranked
    highest by that product, plus the largest such product again. *)
Definition score_by_product (squad : list PlayerData) : Q :=
  let starting_xi := take 11 (sorted_desc points_product squad) in
  (sum (points_product <$> starting_xi)
   + match starting_xi with
     | [] => 0
     | first :: others => points_product (max_by points_product first others)
     end)%Q.

(** The constraint specifications that the specification wants rejected:
    budget ≤ 0, squad_size < starting_size, starting_size < 11,
    max_per_team < 1, a formation outside the catalog, or an id both
    excluded and required. *)
Definition invalid_constraints (c : OptimizationConstraints) : Prop :=
  (budget c <= 0)%Q
  \/ squad_size c < starting_xi_size c
  \/ starting_xi_size c < 11
  \/ max_players_per_team c < 1
  \/ (exists f, formation c = Some f /\ f ∉ keys FORMATION_CONSTRAINTS)
  \/ (exists i, i ∈ truthy (excluded_players c)
                /\ i ∈ truthy (required_players c)).

(** A call that fails with an exception of the given class. *)
Definition fails_with {A} (class : string) (o : outcome A) : Prop :=
  exists msg, o = Raised (mk_exn class msg).

End spec.

(** ** Predicates used to state the properties *)

Module props.
Import pulp squad_optimizer transfer_planner.

(** A solver that decides every 0/1 program: [Optimal] comes with a
    feasible valuation of largest objective, any other status means that
    no valuation is feasible. *)
Definition decides (solver : Solver) : Prop :=
  forall P,
    match solver P with
    | (LpStatusOptimal, v) =>
        feasible P v
        /\ forall v', feasible P v' ->
             (eval v' (objective P) <= eval v (objective P))%Q
    | (_, _) => forall v', ~ feasible P v'
    end.

(** The valuation [v] gives the variables decided by [a] the value
    decided. *)
Definition agrees (a : exhaustive.assignment) (v : LpVariable -> Q) : Prop :=
  forall x b, exhaustive.assigned a x = Some b -> v x = if b then 1%Q else 0%Q.

(** Descending order of the keys. *)
Definition key_ge {A} (key : A -> Q) (x y : A) : Prop := (key y <= key x)%Q.

(** The free transfers of the next period after the transfers [made]. *)
Definition rollover {A} (made : list A) : Z :=
  match made with [] => 2 | _ => 1 end.

(** What an accepted option satisfies when [n] options were accepted
    before it. *)
Definition pays_its_cost (free_transfers n : Z) (t : TransferOption) : Prop :=
  if decide (n < free_transfers) then (0 < expected_gain t)%Q
  else (4 < expected_gain t)%Q.

(** [ids] without the id [x]. *)
Definition without (x : Z) (ids : option (list Z)) : option (list Z) :=
  List.filter (fun i => bool_decide (i <> x)) <$> ids.

(** The constraints [c] with another formation, or other id lists. *)
Definition with_formation (c : OptimizationConstraints) (f : option string)
  : OptimizationConstraints :=
  mk_constraints (budget c) (squad_size c) (starting_xi_size c)
    (max_players_per_team c) f (excluded_players c) (required_players c)
    (risk_tolerance c).

Definition with_excluded (c : OptimizationConstraints) (ids : option (list Z))
  : OptimizationConstraints :=
  mk_constraints (budget c) (squad_size c) (starting_xi_size c)
    (max_players_per_team c) (formation c) ids (required_players c)
    (risk_tolerance c).

Definition with_required (c : OptimizationConstraints) (ids : option (list Z))
  : OptimizationConstraints :=
  mk_constraints (budget c) (squad_size c) (starting_xi_size c)
    (max_players_per_team c) (formation c) (excluded_players c) ids
    (risk_tolerance c).

(** The outcome of the solve that [find_best_formation] runs for the
    formation [f]. *)
Definition solved (solver : Solver) (players : list PlayerData)
    (c : OptimizationConstraints) (f : string) : outcome SquadResult :=
  optimize_squad solver players (formation_constraints c f).

(** What the running variables of [find_best_formation] satisfy once the
    formations [tried] have been tried, in that order: the results are
    those of the formations whose solve returned; the best formation is
    the first of those whose points are the largest, if these are
    positive, and there is none otherwise. *)
Definition search_invariant (solver : Solver) (players : list PlayerData)
    (c : OptimizationConstraints) (tried : list string) (s : FormationSearch)
  : Prop :=
  (forall f r, getitem (formation_results s) f = Some r
               <-> f ∈ tried /\ solved solver players c f = Returned r)
  /\ match best_formation s with
     | Some f =>
         exists r before after,
           tried = before ++ f :: after
           /\ solved solver players c f = Returned r
           /\ best_result s = Some r
           /\ best_points s = r_predicted_points r
           /\ (0 < r_predicted_points r)%Q
           /\ (forall f' r', f' ∈ before ->
                 solved solver players c f' = Returned r' ->
                 (r_predicted_points r' < r_predicted_points r)%Q)
           /\ (forall f' r', f' ∈ after ->
                 solved solver players c f' = Returned r' ->
                 (r_predicted_points r' <= r_predicted_points r)%Q)
     | None =>
         best_result s = None /\ best_points s = 0%Q
         /\ forall f r, f ∈ tried -> solved solver players c f = Returned r ->
              (r_predicted_points r <= 0)%Q
     end.

End props.

(** ** Pools and squads on which the code is evaluated *)

Module examples.
Import squad_optimizer transfer_planner.

(** A player of team [i], priced [cost], predicted [points] with start
    probability [prob]. *)
Definition player (i pos : Z) (cost points prob : Q) : PlayerData :=
  mk_player i pos i cost points prob "" 0 0 0.

(** Twelve midfielders: one predicted 3 points who never starts, eleven
    predicted 2 points who always start. *)
Definition squad12 : list PlayerData :=
  player 1 3 5 3 0 :: ((fun i => player i 3 5 2 1) <$> seqZ 2 11).

(** A defender predicted 2 points, and a better one outside the squad. *)
Definition out_player : PlayerData := player 1 2 5 2 1.
Definition in_player : PlayerData := player 2 2 5 5 1.

(** One keeper, three defenders, two midfielders and a forward, each
    priced 2 and predicted 2 points. *)
Definition pool7 : list PlayerData :=
  [ player 1 1 2 2 1; player 2 2 2 2 1; player 3 2 2 2 1; player 4 2 2 2 1;
    player 5 3 2 2 1; player 6 3 2 2 1; player 7 4 2 2 1 ].

(** A squad of seven with a starting line-up of seven. *)
Definition seven (budget : Q) : OptimizationConstraints :=
  mk_constraints budget 7 7 3 None None None (1 # 2).

(** One keeper, four defenders priced 4, four midfielders priced 5 and
    three forwards priced 6, all predicted 2 points. *)
Definition pool12 : list PlayerData :=
  [ player 1 1 5 2 1 ]
  ++ ((fun i => player i 2 4 2 1) <$> seqZ 2 4)
  ++ ((fun i => player i 3 5 2 1) <$> seqZ 6 4)
  ++ ((fun i => player i 4 6 2 1) <$> seqZ 10 3).

(** A squad of eleven, all starting. *)
Definition eleven : OptimizationConstraints :=
  mk_constraints 100 11 11 3 None None None (1 # 2).

(** Player 1 both excluded and required, and a formation that is not in
    the catalog. *)
Definition conflicting : OptimizationConstraints :=
  mk_constraints 100 7 7 3 (Some "9-9-9") (Some [1]) (Some [1]) (1 # 2).

End examples.

(** * Properties *)

Import pulp squad_optimizer transfer_planner props.

(** ** Facts about the Python built-ins *)

Lemma Qltb_lt x y : Qltb x y = true <-> (x < y)%Q.
Proof.
  unfold Qltb. rewrite negb_true_iff, <- not_true_iff_false, Qle_bool_iff.
  split; [apply Qnot_le_lt | apply Qlt_not_le].
Qed.

Lemma Qltb_ge x y : Qltb x y = false <-> (y <= x)%Q.
Proof. unfold Qltb. rewrite negb_false_iff. apply Qle_bool_iff. Qed.

Lemma Qgtb_gt x y : Qgtb x y = true <-> (y < x)%Q.
Proof. apply Qltb_lt. Qed.

Lemma Qgtb_le x y : Qgtb x y = false <-> (x <= y)%Q.
Proof. apply Qltb_ge. Qed.

Lemma len_app {A} (l k : list A) : len (l ++ k) = len l + len k.
Proof. unfold len. rewrite length_app. lia. Qed.

Section Ordering.
Context {A : Type} (key : A -> Q).

(** [max_by] returns a member of the list whose key is the largest. *)
Lemma max_by_spec (x : A) (xs : list A) :
  max_by key x xs ∈ x :: xs
  /\ forall y, y ∈ x :: xs -> (key y <= key (max_by key x xs))%Q.
Proof.
  unfold max_by. revert x. induction xs as [|z xs IH]; intros x; simpl.
  - split; [left|]. intros y Hy.
    apply list_elem_of_singleton in Hy as ->. apply Qle_refl.
  - destruct (Qgtb (key z) (key x)) eqn:E.
    + destruct (IH z) as [Hin Hmax]. split; [by right|].
      intros y Hy. apply elem_of_cons in Hy as [->|Hy]; [|by apply Hmax].
      apply Qgtb_gt in E. eapply Qle_trans; [apply Qlt_le_weak, E|].
      apply Hmax. left.
    + destruct (IH x) as [Hin Hmax]. split.
      * apply elem_of_cons in Hin as [->|Hin]; [left|right; by right].
      * intros y Hy. apply elem_of_cons in Hy as [->|Hy]; [apply Hmax; left|].
        apply elem_of_cons in Hy as [->|Hy]; [|apply Hmax; by right].
        apply Qgtb_le in E. eapply Qle_trans; [exact E|]. apply Hmax. left.
Qed.

Lemma insert_desc_perm x l : insert_desc key x l ≡ₚ x :: l.
Proof.
  induction l as [|y l IH]; simpl; [done|].
  destruct (Qltb (key x) (key y)); [|done].
  rewrite IH. apply Permutation_swap.
Qed.

Lemma sorted_desc_perm l : sorted_desc key l ≡ₚ l.
Proof.
  induction l as [|x l IH]; [done|].
  unfold sorted_desc in *. simpl. rewrite insert_desc_perm. by rewrite IH.
Qed.

Lemma insert_desc_sorted x l :
  StronglySorted (key_ge key) l ->
  StronglySorted (key_ge key) (insert_desc key x l).
Proof.
  induction 1 as [|y l Hs IH Hy]; simpl.
  - repeat constructor.
  - destruct (Qltb (key x) (key y)) eqn:E.
    + constructor; [exact IH|].
      rewrite insert_desc_perm. constructor; [|exact Hy].
      apply Qltb_lt in E. apply Qlt_le_weak, E.
    + apply Qltb_ge in E. constructor; [by constructor|].
      constructor; [exact E|].
      eapply Forall_impl; [exact Hy|]. intros z Hz. unfold key_ge in *.
      eapply Qle_trans; eassumption.
Qed.

Lemma sorted_desc_sorted l : StronglySorted (key_ge key) (sorted_desc key l).
Proof.
  induction l as [|x l IH]; [constructor|].
  unfold sorted_desc in *. simpl. by apply insert_desc_sorted.
Qed.

Lemma fold_left_sum (f : A -> Q) l : forall acc,
  fold_left (fun total x => (total + f x)%Q) l acc
  = fold_left Qplus (f <$> l) acc.
Proof. induction l as [|x l IH]; intros acc; simpl; [done|]. apply IH. Qed.

End Ordering.

Section DictFacts.
Context {K V : Type} `{EqDecision K}.

Lemma getitem_setitem (d : dict K V) k v k' :
  getitem (setitem d k v) k' = if decide (k' = k) then Some v else getitem d k'.
Proof.
  induction d as [|[k0 v0] d IH]; simpl.
  - by destruct (decide (k' = k)).
  - destruct (decide (k = k0)) as [->|Hne]; simpl.
    + by destruct (decide (k' = k0)).
    + rewrite IH. destruct (decide (k' = k0)) as [->|]; [|done].
      by rewrite decide_False.
Qed.

Lemma getitem_None (d : dict K V) k : k ∉ keys d -> getitem d k = None.
Proof.
  induction d as [|[k' v] d IH]; simpl; [done|].
  intros Hk. rewrite not_elem_of_cons in Hk. destruct Hk as [Hne Hk].
  rewrite decide_False by done. by apply IH.
Qed.

Lemma getitem_comprehension {A} (kf : A -> K) (vf : A -> V) (xs : list A) k :
  is_Some (getitem (comprehension kf vf xs) k) <-> k ∈ kf <$> xs.
Proof.
  unfold comprehension.
  assert (forall d,
            is_Some (getitem
                       (fold_left (fun d x => setitem d (kf x) (vf x)) xs d) k)
            <-> is_Some (getitem d k) \/ k ∈ kf <$> xs) as Hgen.
  { induction xs as [|x xs IH]; intros d; simpl.
    - rewrite elem_of_nil. tauto.
    - rewrite IH, getitem_setitem, elem_of_cons.
      destruct (decide (k = kf x)) as [->|Hne]; [|tauto].
      split; [auto|]. intros _. left. by eexists. }
  rewrite Hgen. simpl. split; [intros [[? [=]]|]; done|auto].
Qed.

Lemma contains_comprehension {A} (kf : A -> K) (vf : A -> V) (xs : list A) k :
  contains (comprehension kf vf xs) k = true <-> k ∈ kf <$> xs.
Proof.
  unfold contains. rewrite bool_decide_eq_true. apply getitem_comprehension.
Qed.

End DictFacts.

(** ** The transfer planner *)

(** *** Selection of the transfers *)

Section SelectTransfers.
Variables max_transfers free_transfers : Z.

(** The loop keeps what was selected, appends options of the list in
    their order, never reuses an id, never exceeds the maximum, and each
    option it appends pays its cost. *)
Lemma select_loop_spec opts : forall sel uo ui,
  uo = list_to_set (player_out_id <$> sel) ->
  ui = list_to_set (player_in_id <$> sel) ->
  NoDup (player_out_id <$> sel) ->
  NoDup (player_in_id <$> sel) ->
  len sel <= Z.max 0 max_transfers ->
  exists extra,
    select_loop max_transfers free_transfers opts sel uo ui = sel ++ extra
    /\ sublist extra opts
    /\ NoDup (player_out_id <$> sel ++ extra)
    /\ NoDup (player_in_id <$> sel ++ extra)
    /\ len (sel ++ extra) <= Z.max 0 max_transfers
    /\ forall (k : nat) t, extra !! k = Some t ->
         pays_its_cost free_transfers (len sel + Z.of_nat k) t.
Proof.
  induction opts as [|opt rest IH]; intros sel uo ui Huo Hui Hout Hin Hlen; simpl.
  - exists []. rewrite app_nil_r. repeat split; done.
  - destruct (decide (len sel >= max_transfers)) as [Hfull|Hroom].
    { exists []. rewrite app_nil_r. repeat split; try done. apply sublist_nil_l. }
    destruct (decide _) as [Hused|Hfresh].
    { destruct (IH sel uo ui) as (extra & ? & ? & ? & ? & ? & ?); try done.
      exists extra. repeat split; try done. by apply sublist_cons. }
    destruct (Qgtb (expected_gain opt) _) eqn:Hgain.
    + assert (player_out_id opt ∉ player_out_id <$> sel) as Ho.
      { intros Hc. apply Hfresh. left. subst uo. by apply elem_of_list_to_set. }
      assert (player_in_id opt ∉ player_in_id <$> sel) as Hi.
      { intros Hc. apply Hfresh. right. subst ui. by apply elem_of_list_to_set. }
      destruct (IH (sel ++ [opt]) (uo ∪ {[player_out_id opt]})
                   (ui ∪ {[player_in_id opt]}))
        as (extra & Heq & Hsub & Hnd1 & Hnd2 & Hl & Hk).
      * subst uo. rewrite fmap_app, list_to_set_app_L. simpl.
        by rewrite union_empty_r_L.
      * subst ui. rewrite fmap_app, list_to_set_app_L. simpl.
        by rewrite union_empty_r_L.
      * rewrite fmap_app. apply NoDup_app. repeat split; try done.
        -- intros x Hx Hx'. apply list_elem_of_singleton in Hx'. by subst x.
        -- simpl. apply NoDup_singleton.
      * rewrite fmap_app. apply NoDup_app. repeat split; try done.
        -- intros x Hx Hx'. apply list_elem_of_singleton in Hx'. by subst x.
        -- simpl. apply NoDup_singleton.
      * rewrite len_app. unfold len in *. simpl. lia.
      * exists (opt :: extra). rewrite Heq, <- app_assoc. simpl.
        rewrite <- app_assoc in Hnd1, Hnd2, Hl. simpl in Hnd1, Hnd2, Hl.
        repeat split; try done.
        -- by apply sublist_skip.
        -- intros [|k] t Hlook; simpl in Hlook.
           ++ injection Hlook as <-. rewrite Z.add_0_r. unfold pays_its_cost.
              apply Qgtb_gt in Hgain.
              destruct (decide (len sel >= free_transfers)),
                       (decide (len sel < free_transfers));
                try lia; exact Hgain.
           ++ specialize (Hk k t Hlook). rewrite len_app in Hk.
              replace (len sel + Z.of_nat (S k))
                with (len sel + len [opt] + Z.of_nat k); [done|].
              unfold len. simpl. lia.
    + destruct (IH sel uo ui) as (extra & ? & ? & ? & ? & ? & ?); try done.
      exists extra. repeat split; try done. by apply sublist_cons.
Qed.

End SelectTransfers.

(** C8.  Whatever the list of candidate options (sorted by descending
    expected gain or not), [_select_transfers] returns options of the
    list, in the order of the list; it returns at most
    [max_transfers] of them (none when that maximum is not positive);
    no outgoing id and no incoming id appears twice; and the k-th
    accepted option (counting from 0) has an expected gain above 0 when
    k is less than [free_transfers], above 4 otherwise. *)
Theorem select_transfers_greedy (transfer_options : list TransferOption)
    (max_transfers free_transfers : Z) :
  let selected :=
    _select_transfers transfer_options max_transfers free_transfers in
  sublist selected transfer_options
  /\ len selected <= Z.max 0 max_transfers
  /\ NoDup (player_out_id <$> selected)
  /\ NoDup (player_in_id <$> selected)
  /\ forall (k : nat) t, selected !! k = Some t ->
       if decide (Z.of_nat k < free_transfers) then (0 < expected_gain t)%Q
       else (4 < expected_gain t)%Q.
Proof.
  destruct transfer_options as [|o l].
  { simpl. repeat split; try done; try apply NoDup_nil_2.
    unfold len. simpl. lia. }
  destruct (select_loop_spec max_transfers free_transfers (o :: l) [] ∅ ∅)
    as (extra & Heq & Hsub & Hnd1 & Hnd2 & Hl & Hk);
    try done; try apply NoDup_nil_2.
  { unfold len. simpl. lia. }
  change (_select_transfers (o :: l) max_transfers free_transfers)
    with (select_loop max_transfers free_transfers (o :: l) [] ∅ ∅).
  rewrite Heq. cbv zeta. rewrite !app_nil_l in *.
  repeat split; done.
Qed.

(** *** Transfer cost and free transfers *)

Section PlanWeeks.
Variables (all_players : list PlayerData) (max_transfers_per_week : Z)
          (available_chips : dict string bool) (current_gameweek : Z).

Let weeks := plan_weeks all_players max_transfers_per_week available_chips
                        current_gameweek.

Lemma plan_weeks_cost offsets : forall state plan,
  plan ∈ (weeks offsets state).1 ->
  total_transfer_cost plan
  = Z.max 0 ((len (transfers plan) - gp_free_transfers plan) * 4).
Proof.
  unfold weeks.
  induction offsets as [|o rest IH]; intros state plan; simpl.
  - intros H. by apply elem_of_nil in H.
  - destruct (plan_weeks _ _ _ _ rest _) as [plans final] eqn:E. simpl.
    intros H. apply elem_of_cons in H as [->|H]; [done|].
    eapply IH. rewrite E. exact H.
Qed.

Lemma plan_weeks_head offsets state plan :
  head (weeks offsets state).1 = Some plan ->
  gp_free_transfers plan = st_free_transfers state.
Proof.
  unfold weeks. destruct offsets as [|o rest]; simpl; [done|].
  destruct (plan_weeks _ _ _ _ rest _) as [plans final]. simpl.
  by intros [= <-].
Qed.

Lemma plan_weeks_chain offsets : forall state (k : nat) plan plan',
  (weeks offsets state).1 !! k = Some plan ->
  (weeks offsets state).1 !! S k = Some plan' ->
  gp_free_transfers plan' = rollover (transfers plan).
Proof.
  unfold weeks.
  induction offsets as [|o rest IH]; intros state k plan plan'; simpl; [done|].
  destruct (plan_weeks _ _ _ _ rest _) as [plans final] eqn:E. simpl.
  destruct k as [|k]; simpl.
  - intros [= <-] Hnext.
    pose proof (plan_weeks_head rest
      (_update_state state (_plan_single_gameweek state all_players
         (current_gameweek + o) max_transfers_per_week available_chips)) plan') as Hh.
    unfold weeks in Hh. rewrite E in Hh. simpl in Hh.
    rewrite Hh; [done|]. by rewrite head_lookup.
  - intros H1 H2. eapply (IH _ k); rewrite E; simpl; eassumption.
Qed.

Lemma plan_weeks_final offsets : forall state,
  st_free_transfers (weeks offsets state).2
  = match last (weeks offsets state).1 with
    | Some plan => rollover (transfers plan)
    | None => st_free_transfers state
    end.
Proof.
  unfold weeks.
  induction offsets as [|o rest IH]; intros state; simpl; [done|].
  specialize (IH (_update_state state (_plan_single_gameweek state all_players
         (current_gameweek + o) max_transfers_per_week available_chips))).
  destruct (plan_weeks _ _ _ _ rest _) as [plans final] eqn:E. simpl in *.
  rewrite IH. destruct plans as [|p ps]; simpl; [done|].
  destruct (last (p :: ps)) eqn:L; [done|]. by apply last_None in L.
Qed.

End PlanWeeks.

(** C9.  In the report of [plan_transfers], the transfer cost of every
    period is [max(0, (transfers_made - free_transfers) * 4)]; the first
    period has 1 free transfer; the free transfers of the period after
    one with no transfer are 2, and 1 otherwise, and so is the balance of
    the state left after the last period; hence the balance is always 1
    or 2. *)
Theorem transfer_cost_and_rollover
    (current_squad all_players : list PlayerData)
    (horizon max_transfers_per_week : Z)
    (available_chips : option (dict string bool)) (current_gameweek : Z) :
  let report := plan_transfers current_squad all_players horizon
                  max_transfers_per_week available_chips current_gameweek in
  let final_state := (planned_weeks current_squad all_players horizon
                  max_transfers_per_week available_chips current_gameweek).2 in
  (forall week, week ∈ gameweek_plans report ->
     pd_total_transfer_cost week
     = Z.max 0 ((len (pd_transfers week) - pd_free_transfers week) * 4))
  /\ (forall week, head (gameweek_plans report) = Some week ->
        pd_free_transfers week = 1)
  /\ (forall (k : nat) week next,
        gameweek_plans report !! k = Some week ->
        gameweek_plans report !! S k = Some next ->
        pd_free_transfers next
        = if decide (len (pd_transfers week) = 0) then 2 else 1)
  /\ (forall week, last (gameweek_plans report) = Some week ->
        st_free_transfers final_state
        = if decide (len (pd_transfers week) = 0) then 2 else 1)
  /\ (forall week, week ∈ gameweek_plans report ->
        pd_free_transfers week = 1 \/ pd_free_transfers week = 2)
  /\ (st_free_transfers final_state = 1 \/ st_free_transfers final_state = 2).
Proof.
  intros report final_state.
  set (plans := (planned_weeks current_squad all_players horizon
                   max_transfers_per_week available_chips current_gameweek).1).
  assert (gameweek_plans report = _gameweek_plan_to_dict <$> plans) as Hrep by done.
  assert (forall plan, len (pd_transfers (_gameweek_plan_to_dict plan)) = 0
                       <-> transfers plan = []) as Hnone.
  { intros plan. unfold len. simpl. rewrite length_fmap.
    destruct (transfers plan); simpl; split; (done || lia). }
  assert (forall plan, rollover (transfers plan)
            = if decide (len (pd_transfers (_gameweek_plan_to_dict plan)) = 0)
              then 2 else 1) as Hroll.
  { intros plan. destruct (decide _) as [H|H].
    - apply Hnone in H. by rewrite H.
    - destruct (transfers plan) eqn:E; [|done]. exfalso. apply H, Hnone, E. }
  assert (forall plan, plans !! 0%nat = Some plan -> gp_free_transfers plan = 1)
    as Hhead.
  { intros plan E.
    apply (plan_weeks_head all_players max_transfers_per_week
             (default default_chips available_chips) current_gameweek
             (seqZ 0 horizon) (initial_state current_squad current_gameweek)).
    rewrite head_lookup. exact E. }
  assert (forall week, week ∈ gameweek_plans report ->
            pd_free_transfers week = 1 \/ pd_free_transfers week = 2) as Hrange.
  { intros week Hin. rewrite Hrep in Hin.
    apply list_elem_of_lookup in Hin as [k Hk].
    rewrite list_lookup_fmap in Hk.
    destruct (plans !! k) as [plan|] eqn:Ek; [|done]. injection Hk as <-. simpl.
    destruct k as [|k].
    - left. by apply Hhead.
    - destruct (plans !! k) as [prev|] eqn:Ep.
      + rewrite (plan_weeks_chain _ _ _ _ _ _ _ _ _ Ep Ek).
        unfold rollover. destruct (transfers prev); auto.
      + apply lookup_ge_None in Ep. apply lookup_lt_Some in Ek. lia. }
  split; [|split; [|split; [|split; [|split]]]].
  - intros week Hin. rewrite Hrep in Hin.
    apply list_elem_of_fmap in Hin as (plan & -> & Hin). simpl.
    unfold len. rewrite length_fmap. by eapply plan_weeks_cost.
  - intros week Hh. rewrite Hrep, head_lookup, list_lookup_fmap in Hh.
    destruct (plans !! 0%nat) as [plan|] eqn:E; [|done]. injection Hh as <-. simpl.
    by apply Hhead.
  - intros k week next Hk Hn. rewrite Hrep, list_lookup_fmap in Hk, Hn.
    destruct (plans !! k) as [plan|] eqn:Ek; [|done].
    destruct (plans !! S k) as [plan'|] eqn:En; [|done].
    injection Hk as <-. injection Hn as <-. rewrite <- Hroll.
    exact (plan_weeks_chain _ _ _ _ _ _ _ _ _ Ek En).
  - intros week Hl. rewrite Hrep, fmap_last in Hl.
    destruct (last plans) as [plan|] eqn:El; [|done]. injection Hl as <-.
    rewrite <- Hroll. unfold final_state, planned_weeks.
    rewrite plan_weeks_final. fold (planned_weeks current_squad all_players horizon
      max_transfers_per_week available_chips current_gameweek). fold plans.
    by rewrite El.
  - exact Hrange.
  - unfold final_state, planned_weeks. rewrite plan_weeks_final.
    destruct (last _) as [plan|]; [|by left].
    unfold rollover. destruct (transfers plan); auto.
Qed.

(** *** The score of a period *)

(** C3, as the code has it.  For every non-empty squad, the score of
    [_calculate_squad_expected_points] is the sum of
    predicted_points · start_probability over the starting eleven plus
    the largest such product among those eleven again, where the
    starting eleven are the first eleven members (all of them when the
    squad is smaller) of the squad sorted by descending predicted_points
    alone: no member left out is predicted more points than a member of
    the eleven. *)
Theorem squad_expected_points_top11_by_predicted (squad : list PlayerData) :
  squad <> [] ->
  exists starting_xi bench captain,
    starting_xi = take 11 (sorted_desc predicted_points squad)
    /\ starting_xi ++ bench ≡ₚ squad
    /\ length starting_xi = (11 `min` length squad)%nat
    /\ (forall p q, p ∈ starting_xi -> q ∈ bench ->
          (predicted_points q <= predicted_points p)%Q)
    /\ captain ∈ starting_xi
    /\ (forall p, p ∈ starting_xi ->
          (points_product p <= points_product captain)%Q)
    /\ _calculate_squad_expected_points squad
       = (sum (points_product <$> starting_xi) + points_product captain)%Q.
Proof.
  intros Hne.
  set (sorted_squad := sorted_desc predicted_points squad).
  assert (sorted_squad ≡ₚ squad) as Hperm by apply sorted_desc_perm.
  assert (StronglySorted (key_ge predicted_points) sorted_squad) as Hsorted
    by apply sorted_desc_sorted.
  unfold _calculate_squad_expected_points. fold sorted_squad.
  destruct (take 11 sorted_squad) as [|first others] eqn:Hxi.
  { exfalso. apply Hne. apply Permutation_nil_r. rewrite <- Hperm.
    destruct sorted_squad; [done|discriminate]. }
  exists (first :: others), (drop 11 sorted_squad),
         (max_by points_product first others).
  rewrite <- Hxi.
  split; [done|]. split; [by rewrite take_drop|].
  split; [by rewrite length_take, (Permutation_length Hperm)|].
  split.
  { intros p q Hp Hq. rewrite <- (take_drop 11 sorted_squad) in Hsorted.
    exact (StronglySorted_app_1_elem_of _ _ _ p q Hsorted Hp Hq). }
  rewrite Hxi.
  destruct (max_by_spec points_product first others) as [Hin Hmax].
  split; [exact Hin|]. split; [exact Hmax|].
  by rewrite fold_left_sum.
Qed.

(** The statement at the squad of twelve. *)
Lemma squad_expected_points_top11_witness :
  examples.squad12 <> []
  /\ exists starting_xi bench captain,
       starting_xi = take 11 (sorted_desc predicted_points examples.squad12)
       /\ starting_xi ++ bench ≡ₚ examples.squad12
       /\ length starting_xi = (11 `min` length examples.squad12)%nat
       /\ (forall p q, p ∈ starting_xi -> q ∈ bench ->
             (predicted_points q <= predicted_points p)%Q)
       /\ captain ∈ starting_xi
       /\ (forall p, p ∈ starting_xi ->
             (points_product p <= points_product captain)%Q)
       /\ _calculate_squad_expected_points examples.squad12
          = (sum (points_product <$> starting_xi) + points_product captain)%Q.
Proof.
  split; [discriminate|].
  apply (squad_expected_points_top11_by_predicted examples.squad12).
  discriminate.
Defined.

(** C3, as stated, fails on a squad of twelve: the member predicted 3
    points who never starts is in the eleven of the code, which scores
    22, while the eleven ranked by the product score 24. *)
Lemma score_not_by_product :
  (_calculate_squad_expected_points examples.squad12 == 22)%Q
  /\ (spec.score_by_product examples.squad12 == 24)%Q
  /\ ~ (_calculate_squad_expected_points examples.squad12
        == spec.score_by_product examples.squad12)%Q.
Proof.
  split; [by vm_compute|]. split; [by vm_compute|].
  intros H. vm_compute in H. discriminate H.
Qed.

(** *** Application of the transfers *)

(** What the function does: it keeps, in their order, the members whose id
    is not an outgoing id, and adds nobody. *)
Lemma apply_transfers_only_removes
    (squad : list PlayerData) (transfers : list TransferOption) :
  sublist (_apply_transfers squad transfers) squad
  /\ forall p, p ∈ _apply_transfers squad transfers <->
       p ∈ squad /\ pid p ∉ player_out_id <$> transfers.
Proof.
  unfold _apply_transfers. split.
  - induction squad as [|q squad IH]; simpl; [done|].
    destruct (bool_decide _); [by apply sublist_skip|by apply sublist_cons].
  - intros p. rewrite list_elem_of_In, filter_In, <- list_elem_of_In.
    by rewrite bool_decide_eq_true, elem_of_list_to_set.
Qed.

(** C1, on the code.  A squad of one defender and a pool with a better
    defender: the planner selects the transfer of the one for the
    other, and the squad that results is empty; the incoming player is
    not inserted, and the squad stays empty in the state handed to the
    next period. *)
Theorem apply_transfers_loses_player :
  let squad := [examples.out_player] in
  let pool := [examples.out_player; examples.in_player] in
  let selected := _select_transfers (_find_transfer_options squad pool 1) 1 1 in
  (player_out_id <$> selected, player_in_id <$> selected) = ([1], [2])
  /\ _apply_transfers squad selected = []
  /\ length (_apply_transfers squad selected) <> length squad
  /\ st_squad (planned_weeks squad pool 2 1 None 1).2 = [].
Proof. vm_compute. repeat split; try done. Qed.

(** *** The triple captain chip *)

(** C5, on the code.  Whatever the plans, the benefit reported for the
    triple captain chip is the constant 12 and the period recommended is
    the first one (no period and a benefit of 0 when there is no plan);
    for a squad of one player predicted 2 points, whose best captain is
    worth 2, the report recommends period 1 with a benefit of 12. *)
Theorem triple_captain_placeholder :
  (forall gameweek_plans current_gameweek,
     _find_best_triple_captain_gameweek gameweek_plans current_gameweek
     = mk_chip "triple_captain" (gp_gameweek <$> head gameweek_plans)
               (match gameweek_plans with [] => 0 | _ => 12 end)%Q (8 # 10))
  /\ (let squad := [examples.out_player] in
      let report :=
        plan_transfers squad squad 2 1 (Some [("triple_captain", true)]) 1 in
      (points_product <$> squad) = [2%Q]
      /\ chip_recommendations report
         = [("triple_captain", mk_chip "triple_captain" (Some 1) 12 (8 # 10))]).
Proof.
  split; [|by vm_compute].
  intros plans current_gameweek. unfold _find_best_triple_captain_gameweek.
  destruct plans as [|p ps]; [done|]. simpl.
  change (Qgtb 12 0) with true. cbv iota.
  generalize (gp_gameweek p). clear p. induction ps as [|q ps IH]; intros g.
  - done.
  - simpl. change (Qgtb 12 12) with false. cbv iota. apply IH.
Qed.

(** ** The squad optimizer *)

(** *** Choice of the captain *)

(** C7, as the code has it.  When no player of the list has an id of the
    squad, [optimize_captain_choice] raises nothing: it returns the
    dictionary whose only entry is the error "No players in current
    squad". *)
Theorem captain_choice_unmatched (players : list PlayerData) (current_squad : list Z) :
  (forall p, p ∈ players -> pid p ∉ current_squad) ->
  optimize_captain_choice players current_squad
  = Returned (CaptainError "No players in current squad").
Proof.
  intros Hnone. unfold optimize_captain_choice.
  replace (List.filter _ players) with (@nil PlayerData); [done|].
  symmetry. induction players as [|p ps IH]; simpl; [done|].
  rewrite bool_decide_eq_false_2 by (apply Hnone; left).
  apply IH. intros q Hq. apply Hnone. by right.
Qed.

(** The statement at a list of one player and a squad that names another. *)
Lemma captain_choice_unmatched_witness :
  (forall p, p ∈ [examples.out_player] -> pid p ∉ [2])
  /\ optimize_captain_choice [examples.out_player] [2]
     = Returned (CaptainError "No players in current squad").
Proof.
  assert (forall p, p ∈ [examples.out_player] -> pid p ∉ [2]) as H.
  { intros p Hp. apply list_elem_of_singleton in Hp as ->.
    apply not_elem_of_cons. split; [discriminate|apply not_elem_of_nil]. }
  split; [exact H|].
  exact (captain_choice_unmatched [examples.out_player] [2] H).
Defined.

(** C7, as stated, fails: with one player of id 1 and a squad that only
    names the id 2, the call returns normally and does not fail with
    EmptyCandidateSetError. *)
Lemma unmatched_squad_returns_error :
  optimize_captain_choice [examples.out_player] [2]
  = Returned (CaptainError "No players in current squad")
  /\ ~ spec.fails_with "EmptyCandidateSetError"
        (optimize_captain_choice [examples.out_player] [2]).
Proof.
  split; [by vm_compute|]. intros [msg H]. vm_compute in H. discriminate H.
Qed.

(** *** Excluded and required ids that match no player *)

Lemma omap_filter_ne {B} (f : Z -> option B) x (l : list Z) :
  f x = None -> omap f (List.filter (fun i => bool_decide (i <> x)) l) = omap f l.
Proof.
  intros Hx. induction l as [|i l IH]; [done|].
  cbn [List.filter]. destruct (decide (i = x)) as [->|Hne].
  - rewrite bool_decide_eq_false_2 by (intros H; by apply H).
    cbn [omap list_omap]. by rewrite Hx.
  - rewrite bool_decide_eq_true_2 by done. cbn [omap list_omap]. by rewrite IH.
Qed.

Lemma omap_without {B} (f : Z -> option B) x ids :
  f x = None -> omap f (truthy (without x ids)) = omap f (truthy ids).
Proof.
  intros Hx. destruct ids as [l|]; [|done]. by apply omap_filter_ne.
Qed.

(** C10.  For an id that matches no player of the pool,
    [optimize_squad] gives the same outcome, result or error, as a call
    with that id removed from [excluded_players], and as a call with it
    removed from [required_players]: the id adds no constraint and
    raises no error. *)
Theorem unmatched_ids_are_ignored (solver : Solver)
    (players : list PlayerData) (c : OptimizationConstraints) (x : Z) :
  x ∉ pid <$> players ->
  optimize_squad solver players c
  = optimize_squad solver players
      (with_excluded c (without x (excluded_players c)))
  /\ optimize_squad solver players c
     = optimize_squad solver players
         (with_required c (without x (required_players c))).
Proof.
  intros Hx.
  assert (contains (make_vars squad_ players) x = false) as Hc.
  { apply not_true_iff_false. unfold make_vars.
    by rewrite contains_comprehension. }
  split.
  - unfold optimize_squad, build_problem, _add_squad_constraints,
      chosen_formation; simpl.
    rewrite omap_without by (by rewrite Hc). reflexivity.
  - unfold optimize_squad, build_problem, _add_squad_constraints,
      chosen_formation; simpl.
    rewrite omap_without by (by rewrite Hc). reflexivity.
Qed.

(** The statement at the pool of seven, for the excluded id 99. *)
Lemma unmatched_ids_are_ignored_witness :
  (99 ∉ pid <$> examples.pool7)
  /\ optimize_squad exhaustive.solve examples.pool7
       (with_excluded (examples.seven 100) (Some [99; 1]))
     = optimize_squad exhaustive.solve examples.pool7
         (with_excluded (examples.seven 100) (Some [1])).
Proof.
  assert (99 ∉ pid <$> examples.pool7) as H.
  { intros Hin. apply list_elem_of_In in Hin. simpl in Hin.
    repeat (destruct Hin as [Hin|Hin]; [discriminate Hin|]). exact Hin. }
  split; [exact H|].
  exact (proj1 (unmatched_ids_are_ignored exhaustive.solve examples.pool7
                  (with_excluded (examples.seven 100) (Some [99; 1])) 99 H)).
Defined.

(** *** Search of the best formation *)

Section FormationSearch.
Variables (solver : Solver) (players : list PlayerData)
          (c : OptimizationConstraints).

Local Abbreviation solved := (props.solved solver players c).
Local Abbreviation invariant := (search_invariant solver players c).

Lemma search_invariant_best_points done s :
  invariant done s ->
  (0 <= best_points s)%Q
  /\ forall f r, f ∈ done -> solved f = Returned r ->
       (r_predicted_points r <= best_points s)%Q.
Proof.
  intros [_ Hbest]. destruct (best_formation s) as [f|].
  - destruct Hbest as (r & before & after & -> & Hf & _ & -> & Hpos & Hb & Ha).
    split; [by apply Qlt_le_weak|].
    intros f' r' Hin Hs. rewrite elem_of_app, elem_of_cons in Hin.
    destruct Hin as [Hin|[->|Hin]].
    + apply Qlt_le_weak. by eapply Hb.
    + rewrite Hf in Hs. injection Hs as ->. apply Qle_refl.
    + by eapply Ha.
  - destruct Hbest as (_ & -> & Hall). split; [apply Qle_refl|exact Hall].
Qed.

Lemma formation_step_invariant done s f :
  invariant done s ->
  invariant (done ++ [f]) (formation_step solver players c s f).
Proof.
  intros Hinv. pose proof (search_invariant_best_points _ _ Hinv) as [Hnn Hle].
  destruct Hinv as [Hres Hbest].
  unfold formation_step. fold (solved f).
  destruct (solved f) as [r|e] eqn:Hf.
  - assert (forall f' r', getitem (setitem (formation_results s) f r) f' = Some r'
                          <-> f' ∈ done ++ [f] /\ solved f' = Returned r') as Hres'.
    { intros f' r'. rewrite getitem_setitem, elem_of_app, list_elem_of_singleton.
      destruct (decide (f' = f)) as [->|Hne].
      - rewrite Hf. split; [intros [= ->]; auto|]. by intros [_ [= ->]].
      - rewrite Hres. tauto. }
    destruct (Qgtb (r_predicted_points r) (best_points s)) eqn:Hcmp.
    + apply Qgtb_gt in Hcmp. split; [exact Hres'|]. simpl.
      exists r, done, []. repeat split; try done.
      * eapply Qle_lt_trans; eassumption.
      * intros f' r' Hin Hs. eapply Qle_lt_trans; [by eapply Hle|exact Hcmp].
      * intros f' r' Hin. by apply elem_of_nil in Hin.
    + apply Qgtb_le in Hcmp. split; [exact Hres'|]. simpl.
      destruct (best_formation s) as [f0|].
      * destruct Hbest as (r0 & before & after & -> & Hf0 & Hr0 & Hp0 & Hpos & Hb & Ha).
        exists r0, before, (after ++ [f]). rewrite <- app_assoc. simpl.
        repeat split; try done.
        intros f' r' Hin Hs. rewrite elem_of_app, list_elem_of_singleton in Hin.
        destruct Hin as [Hin| ->]; [by eapply Ha|].
        rewrite Hf in Hs. injection Hs as <-. by rewrite <- Hp0.
      * destruct Hbest as (Hr0 & Hp0 & Hall). repeat split; try done.
        intros f' r' Hin Hs. rewrite elem_of_app, list_elem_of_singleton in Hin.
        destruct Hin as [Hin| ->]; [by eapply Hall|].
        rewrite Hf in Hs. injection Hs as <-. by rewrite <- Hp0.
  - split.
    + intros f' r'. rewrite Hres, elem_of_app, list_elem_of_singleton.
      split; [tauto|]. intros [[Hin| ->] Hs]; [done|]. by rewrite Hf in Hs.
    + destruct (best_formation s) as [f0|].
      * destruct Hbest as (r0 & before & after & -> & Hf0 & Hr0 & Hp0 & Hpos & Hb & Ha).
        exists r0, before, (after ++ [f]). rewrite <- app_assoc. simpl.
        repeat split; try done.
        intros f' r' Hin Hs. rewrite elem_of_app, list_elem_of_singleton in Hin.
        destruct Hin as [Hin| ->]; [by eapply Ha|]. by rewrite Hf in Hs.
      * destruct Hbest as (Hr0 & Hp0 & Hall). repeat split; try done.
        intros f' r' Hin Hs. rewrite elem_of_app, list_elem_of_singleton in Hin.
        destruct Hin as [Hin| ->]; [by eapply Hall|]. by rewrite Hf in Hs.
Qed.

Lemma formation_fold_invariant todo : forall done s,
  invariant done s ->
  invariant (done ++ todo)
                   (fold_left (formation_step solver players c) todo s).
Proof.
  induction todo as [|f todo IH]; intros done s Hinv; simpl.
  - by rewrite app_nil_r.
  - replace (done ++ f :: todo) with ((done ++ [f]) ++ todo)
      by (by rewrite <- app_assoc).
    apply IH. by apply formation_step_invariant.
Qed.

End FormationSearch.

(** C6, as the code has it.  [find_best_formation] records the result of
    every formation of the catalog whose solve returned.  The best
    formation is, among those, the first in catalog order whose
    predicted_points are the largest, provided they are positive: every
    recorded formation before it has strictly fewer points, every one
    after it has at most as many; the total cost plays no part.  When no
    recorded formation has positive points there is no best formation. *)
Theorem best_formation_first_highest (solver : Solver)
    (players : list PlayerData) (c : OptimizationConstraints) :
  search_invariant solver players c (keys FORMATION_CONSTRAINTS)
                   (find_best_formation solver players c).
Proof.
  apply (formation_fold_invariant solver players c _ []
           (mk_search None 0%Q None [])).
  split; [|repeat split; try done].
  - intros f r. simpl. rewrite elem_of_nil. split; [done|tauto].
  - intros f r Hin. by apply elem_of_nil in Hin.
Qed.

(** C6, as stated, fails on a pool of twelve: the formations 3-4-3,
    4-3-3 and 4-4-2 are solved, all with 24 points, at the costs 55, 54
    and 53; the best formation is 3-4-3, the first of the catalog, not
    the cheapest. *)
Lemma tie_not_broken_by_cost :
  let s := find_best_formation exhaustive.solve examples.pool12 examples.eleven in
  let points_and_cost f :=
    (fun r => (r_predicted_points r, r_total_cost r))
      <$> getitem (formation_results s) f in
  best_formation s = Some "3-4-3"
  /\ points_and_cost "3-4-3" = Some (24%Q, 55%Q)
  /\ points_and_cost "4-4-2" = Some (24%Q, 53%Q).
Proof. vm_compute. repeat split. Qed.

(** ** The reference solver decides every program *)

Section Bounds.
Import exhaustive.

Lemma Qmin0_le c : (Qmin0 c <= 0)%Q /\ (Qmin0 c <= c)%Q.
Proof.
  unfold Qmin0. destruct (Qle_bool c 0) eqn:E.
  - apply Qle_bool_iff in E. split; [exact E|apply Qle_refl].
  - split; [apply Qle_refl|]. apply Qlt_le_weak, Qnot_le_lt.
    intros H. apply Qle_bool_iff in H. congruence.
Qed.

Lemma Qmax0_ge c : (0 <= Qmax0 c)%Q /\ (c <= Qmax0 c)%Q.
Proof.
  unfold Qmax0. destruct (Qle_bool c 0) eqn:E.
  - apply Qle_bool_iff in E. split; [apply Qle_refl|exact E].
  - split; [|apply Qle_refl]. apply Qlt_le_weak, Qnot_le_lt.
    intros H. apply Qle_bool_iff in H. congruence.
Qed.

Lemma term_bounds a v c x :
  agrees a v -> binary v ->
  (match assigned a x with
   | Some true => c | Some false => 0 | None => Qmin0 c end <= c * v x)%Q
  /\ (c * v x <= match assigned a x with
                 | Some true => c | Some false => 0 | None => Qmax0 c end)%Q.
Proof.
  intros Hag Hbin. destruct (assigned a x) as [[|]|] eqn:E.
  - rewrite (Hag _ _ E). rewrite Qmult_1_r. split; apply Qle_refl.
  - rewrite (Hag _ _ E). rewrite Qmult_0_r. split; apply Qle_refl.
  - destruct (Hbin x) as [-> | ->].
    + rewrite Qmult_0_r. split; [apply Qmin0_le|apply Qmax0_ge].
    + rewrite Qmult_1_r. split; [apply Qmin0_le|apply Qmax0_ge].
Qed.

Lemma bounds a v e :
  agrees a v -> binary v ->
  (lower a e <= eval v e)%Q /\ (eval v e <= upper a e)%Q.
Proof.
  intros Hag Hbin. induction e as [|[c x] e [IHl IHu]]; simpl.
  - split; apply Qle_refl.
  - destruct (term_bounds a v c x Hag Hbin) as [Hl Hu].
    split; by apply Qplus_le_compat.
Qed.

Lemma viable_of_holds a v c :
  agrees a v -> binary v -> holds v c = true -> viable a c = true.
Proof.
  intros Hag Hbin. destruct (bounds a v (lhs c) Hag Hbin) as [Hl Hu].
  unfold holds, viable. destruct (sense c).
  - rewrite !Qle_bool_iff. intros H. eapply Qle_trans; eassumption.
  - rewrite Qeq_bool_iff, andb_true_iff, !Qle_bool_iff. intros H.
    rewrite <- H. by split.
  - rewrite !Qle_bool_iff. intros H. eapply Qle_trans; eassumption.
Qed.

Lemma assigned_cons a x b y :
  assigned ((x, b) :: a) y = if decide (y = x) then Some b else assigned a y.
Proof. reflexivity. Qed.

Section Search.
Variable cs : list LpConstraint.

(** Every feasible valuation is found. *)
Lemma search_complete v todo : forall a,
  agrees a v -> binary v -> forallb (holds v) cs = true ->
  exists a', a' ∈ search cs todo a /\ agrees a' v.
Proof.
  intros a Hag Hbin Hfeas. revert a Hag.
  induction todo as [|x todo IH]; intros a Hag; simpl.
  all: assert (forallb (viable a) cs = true) as ->
    by (rewrite forallb_forall in *; intros c Hc;
        eapply viable_of_holds; eauto).
  - exists a. split; [left|exact Hag].
  - destruct (Hbin x) as [Hx|Hx].
    + destruct (IH ((x, false) :: a)) as (a' & Hin & Hag').
      { intros y b. rewrite assigned_cons. destruct (decide (y = x)) as [->|].
        - by intros [= <-]. 
        - apply Hag. }
      exists a'. split; [|exact Hag']. apply elem_of_app. by right.
    + destruct (IH ((x, true) :: a)) as (a' & Hin & Hag').
      { intros y b. rewrite assigned_cons. destruct (decide (y = x)) as [->|].
        - by intros [= <-]. 
        - apply Hag. }
      exists a'. split; [|exact Hag']. apply elem_of_app. by left.
Qed.

(** Every assignment found passes the test of the bounds, and decides
    the variables it was asked to decide. *)
Lemma search_sound todo : forall a a',
  a' ∈ search cs todo a ->
  forallb (viable a') cs = true
  /\ (forall x, x ∈ todo -> is_Some (assigned a' x)).
Proof.
  assert (forall todo a a', a' ∈ search cs todo a ->
            forall x, is_Some (assigned a x) -> is_Some (assigned a' x)) as Hmono.
  { clear todo. induction todo as [|x todo IH]; intros a a'; simpl;
      destruct (forallb (viable a) cs); try (intros H; by apply elem_of_nil in H).
    - intros H. by apply list_elem_of_singleton in H as ->.
    - intros H y Hy. apply elem_of_app in H as [H|H];
        apply (IH _ _ H); rewrite assigned_cons; by destruct (decide (y = x)). }
  induction todo as [|x todo IH]; intros a a'; simpl;
    destruct (forallb (viable a) cs) eqn:Hv; try (intros H; by apply elem_of_nil in H).
  - intros H. apply list_elem_of_singleton in H as ->. split; [exact Hv|].
    intros x Hx. by apply elem_of_nil in Hx.
  - intros H. apply elem_of_app in H as [H|H].
    all: destruct (IH _ _ H) as [Hv' Hall]; split; [exact Hv'|].
    all: intros y Hy; apply elem_of_cons in Hy as [->|Hy]; [|by apply Hall].
    all: apply (Hmono _ _ _ H); rewrite assigned_cons, decide_True by done; by eexists.
Qed.

End Search.

Lemma valuation_binary a : binary (valuation a).
Proof. intros x. unfold valuation. destruct (assigned a x) as [[|]|]; auto. Qed.

Lemma valuation_agrees a : agrees a (valuation a).
Proof. intros x b H. unfold valuation. by rewrite H. Qed.

(** When every variable of an expression is decided, the two bounds meet. *)
Lemma decided_bounds a e :
  (forall x, x ∈ e.*2 -> is_Some (assigned a x)) ->
  (lower a e == eval (valuation a) e)%Q /\ (upper a e == eval (valuation a) e)%Q.
Proof.
  induction e as [|[c x] e IH]; intros Hall; simpl; [done|].
  destruct IH as [IHl IHu]. { intros y Hy. apply Hall. by right. }
  rewrite IHl, IHu. destruct (Hall x) as [b Hb]; [by left|].
  assert (valuation a x = if b then 1%Q else 0%Q) as ->
    by (unfold valuation; rewrite Hb; by destruct b).
  rewrite Hb. destruct b; split; ring.
Qed.

Lemma holds_of_viable a c :
  (forall x, x ∈ (lhs c).*2 -> is_Some (assigned a x)) ->
  viable a c = true -> holds (valuation a) c = true.
Proof.
  intros Hall. destruct (decided_bounds a (lhs c) Hall) as [Hl Hu].
  unfold holds, viable. destruct (sense c).
  - rewrite !Qle_bool_iff. by rewrite Hl.
  - rewrite Qeq_bool_iff, andb_true_iff, !Qle_bool_iff. rewrite Hl, Hu.
    intros [H1 H2]. by apply Qle_antisym.
  - rewrite !Qle_bool_iff. by rewrite Hu.
Qed.

Lemma in_variables_lhs P c x :
  c ∈ constraints P -> x ∈ (lhs c).*2 -> x ∈ variables P.
Proof.
  intros Hc Hx. unfold variables.
  rewrite elem_of_remove_dups, fmap_app, elem_of_app. right.
  apply list_elem_of_fmap in Hx as (t & -> & Ht).
  apply list_elem_of_fmap_2, list_elem_of_In, in_concat.
  exists (lhs c). split; apply list_elem_of_In; [|done].
  by apply list_elem_of_fmap_2.
Qed.

Lemma in_variables_objective P x :
  x ∈ (objective P).*2 -> x ∈ variables P.
Proof.
  intros Hx. unfold variables.
  rewrite elem_of_remove_dups, fmap_app, elem_of_app. by left.
Qed.

Lemma eval_ext v v' e :
  (forall x, x ∈ e.*2 -> v x = v' x) -> eval v e = eval v' e.
Proof.
  induction e as [|[c x] e IH]; intros H; simpl; [done|].
  rewrite IH by (intros y Hy; apply H; by right).
  rewrite (H x) by (by left). done.
Qed.

Lemma found_is_feasible P a :
  a ∈ search (constraints P) (variables P) [] -> feasible P (valuation a).
Proof.
  intros Hin. destruct (search_sound _ _ _ _ Hin) as [Hv Hall].
  split; [apply valuation_binary|].
  rewrite forallb_forall in *. intros c Hc.
  apply holds_of_viable; [|by apply Hv].
  intros x Hx. apply Hall. eapply in_variables_lhs; [|exact Hx].
  by apply list_elem_of_In.
Qed.

Lemma feasible_is_found P v :
  feasible P v ->
  exists a, a ∈ search (constraints P) (variables P) []
            /\ eval (valuation a) (objective P) = eval v (objective P).
Proof.
  intros [Hbin Hfeas].
  destruct (search_complete (constraints P) v (variables P) []) as (a & Hin & Hag);
    try done.
  exists a. split; [exact Hin|].
  destruct (search_sound _ _ _ _ Hin) as [_ Hall].
  apply eval_ext. intros x Hx.
  destruct (Hall x) as [b Hb]; [by apply in_variables_objective|].
  rewrite (Hag _ _ Hb). unfold valuation. rewrite Hb. by destruct b.
Qed.

(** The exhaustive search is a solver that decides. *)
Lemma solve_decides : decides solve.
Proof.
  intros P. unfold solve.
  destruct (search (constraints P) (variables P) []) as [|a others] eqn:E.
  - intros v Hv. destruct (feasible_is_found P v Hv) as (a & Hin & _).
    rewrite E in Hin. by apply elem_of_nil in Hin.
  - set (key := fun a => eval (valuation a) (objective P)).
    destruct (max_by_spec key a others) as [Hin Hmax]. split.
    + apply found_is_feasible. by rewrite E.
    + intros v Hv. destruct (feasible_is_found P v Hv) as (a' & Hin' & <-).
      rewrite E in Hin'. exact (Hmax a' Hin').
Qed.

End Bounds.

(** ** Failure of the optimizer *)

Lemma count_positions_raises starting : forall counts e,
  count_positions starting counts = Raised e -> exn_class e = "KeyError".
Proof.
  induction starting as [|p ps IH]; intros counts e; simpl; [done|].
  destruct (getitem counts (position p)); [apply IH|]. by intros [= <-].
Qed.

Lemma extract_solution_raises players v sv stv cv c e :
  _extract_solution players v sv stv cv c = Raised e -> exn_class e = "KeyError".
Proof.
  unfold _extract_solution, _determine_formation.
  destruct (count_positions _ _) as [counts|e'] eqn:E; simpl; [done|].
  intros [= <-]. by eapply count_positions_raises.
Qed.

Section Failure.
Variables (solver : Solver) (players : list PlayerData)
          (c : OptimizationConstraints).

Let prob := build_problem players c.
Let status := (solver prob).1.

Lemma optimize_squad_not_optimal :
  status <> LpStatusOptimal ->
  optimize_squad solver players c
  = Raised (ValueError ("Optimization failed with status: " +:+ LpStatus status)).
Proof.
  unfold status, prob, optimize_squad.
  destruct (solver (build_problem players c)) as [st v]. simpl.
  intros H. by rewrite decide_False.
Qed.

Lemma optimize_squad_optimal :
  status = LpStatusOptimal ->
  optimize_squad solver players c
  = _extract_solution players (solver prob).2 (make_vars squad_ players)
      (make_vars starting_ players) (make_vars captain_ players) c.
Proof.
  unfold status, prob, optimize_squad.
  destruct (solver (build_problem players c)) as [st v]. simpl.
  intros H. by rewrite decide_True.
Qed.

Lemma optimize_squad_raises e :
  optimize_squad solver players c = Raised e ->
  (status <> LpStatusOptimal /\ exn_class e = "ValueError")
  \/ (status = LpStatusOptimal /\ exn_class e = "KeyError").
Proof.
  destruct (decide (status = LpStatusOptimal)) as [Hst|Hst].
  - rewrite optimize_squad_optimal by done. intros H. right. split; [done|].
    by eapply extract_solution_raises.
  - rewrite optimize_squad_not_optimal by done. intros [= <-]. by left.
Qed.

Lemma decides_status :
  decides solver -> (status <> LpStatusOptimal <-> ~ exists v, feasible prob v).
Proof.
  intros Hd. specialize (Hd prob). unfold status.
  destruct (solver prob) as [st v]. simpl.
  destruct st; try (split; [intros _ [v' Hv']; by apply (Hd v')|done]).
  destruct Hd as [Hv _]. split; [done|]. intros H _. apply H. by exists v.
Qed.

Lemma decides_fails :
  decides solver ->
  (spec.fails_with "ValueError" (optimize_squad solver players c)
   <-> ~ exists v, feasible prob v).
Proof.
  intros Hd. pose proof (decides_status Hd) as Hiff. split.
  - intros [msg H]. apply Hiff.
    apply optimize_squad_raises in H as [[? _]|[_ ?]]; done.
  - intros Hno. apply Hiff in Hno. eexists.
    by apply optimize_squad_not_optimal.
Qed.

End Failure.

Lemma conflicting_ids_infeasible players c i v :
  i ∈ truthy (excluded_players c) -> i ∈ truthy (required_players c) ->
  i ∈ pid <$> players ->
  ~ feasible (build_problem players c) v.
Proof.
  intros Hex Hreq Hin [_ Hfeas].
  assert (contains (make_vars squad_ players) i = true) as Hc
    by (by apply contains_comprehension).
  set (x := item (make_vars squad_ players) i).
  rewrite forallb_forall in Hfeas.
  assert (holds v (eq_ [(1%Q, x)] 0%Q) = true) as H0.
  { apply Hfeas, list_elem_of_In. unfold build_problem, _add_squad_constraints.
    cbn [constraints]. rewrite !elem_of_app. do 4 right. left.
    apply list_elem_of_omap. exists i. by rewrite Hc. }
  assert (holds v (eq_ [(1%Q, x)] 1%Q) = true) as H1.
  { apply Hfeas, list_elem_of_In. unfold build_problem, _add_squad_constraints.
    cbn [constraints]. rewrite !elem_of_app. do 5 right.
    apply list_elem_of_omap. exists i. by rewrite Hc. }
  unfold holds in H0, H1. simpl in H0, H1.
  apply Qeq_bool_iff in H0, H1. rewrite H0 in H1. discriminate H1.
Qed.

(** C4, as the code has it.  [optimize_squad] raises
    ValueError("Optimization failed with status: <status>") exactly when
    the status reported by the solver is not Optimal, and then returns
    no result; it never fails with InfeasibleConstraintsError.  With a
    solver that decides the program, it fails with ValueError exactly
    when no 0/1 assignment satisfies the constraints. *)
Theorem optimize_squad_failure (solver : Solver)
    (players : list PlayerData) (c : OptimizationConstraints) :
  let prob := build_problem players c in
  let status := (solver prob).1 in
  (status <> LpStatusOptimal
   <-> optimize_squad solver players c
       = Raised (ValueError ("Optimization failed with status: "
                             +:+ LpStatus status)))
  /\ (status <> LpStatusOptimal ->
      forall r, optimize_squad solver players c <> Returned r)
  /\ ~ spec.fails_with "InfeasibleConstraintsError"
         (optimize_squad solver players c)
  /\ (decides solver ->
      (spec.fails_with "ValueError" (optimize_squad solver players c)
       <-> ~ exists v, feasible prob v)).
Proof.
  intros prob status. split; [|split; [|split]].
  - split; [apply optimize_squad_not_optimal|].
    intros H Hst. apply optimize_squad_raises in H as [[? _]|[_ ?]]; done.
  - intros Hst r. by rewrite optimize_squad_not_optimal.
  - intros [msg H]. apply optimize_squad_raises in H as [[_ ?]|[_ ?]]; done.
  - intros Hd. apply decides_fails, Hd.
Qed.

(** The statement at the pool of seven with a budget of 10, for the
    reference solver. *)
Lemma optimize_squad_failure_witness :
  decides exhaustive.solve
  /\ (spec.fails_with "ValueError"
        (optimize_squad exhaustive.solve examples.pool7 (examples.seven 10))
      <-> ~ exists v,
            feasible (build_problem examples.pool7 (examples.seven 10)) v).
Proof.
  split; [exact solve_decides|].
  exact (proj2 (proj2 (proj2
           (optimize_squad_failure exhaustive.solve examples.pool7
              (examples.seven 10)))) solve_decides).
Defined.

(** C4, as stated, fails: seven players priced 2 make the only squad of
    seven cost 14, above the budget of 10; the call raises a ValueError
    that names the status, not an InfeasibleConstraintsError. *)
Lemma infeasible_raises_ValueError :
  optimize_squad exhaustive.solve examples.pool7 (examples.seven 10)
  = Raised (ValueError "Optimization failed with status: Infeasible")
  /\ ~ spec.fails_with "InfeasibleConstraintsError"
        (optimize_squad exhaustive.solve examples.pool7 (examples.seven 10)).
Proof.
  assert (optimize_squad exhaustive.solve examples.pool7 (examples.seven 10)
          = Raised (ValueError "Optimization failed with status: Infeasible"))
    as H by (by vm_compute).
  split; [exact H|]. rewrite H. intros [msg [=]].
Qed.

(** C2, as the code has it.  [optimize_squad] validates nothing and never
    fails with InvalidConstraintError: whatever the constraints, it
    builds the program and runs the solver, and an error is raised only
    after the solve, a ValueError when the status is not Optimal (a
    KeyError comes from the positions of the starters, when it is).  A
    formation outside the catalog is treated as no formation.  With a
    solver that decides the program, an id of the pool that is both
    excluded and required makes the call fail with ValueError. *)
Theorem constraints_are_not_validated (solver : Solver)
    (players : list PlayerData) (c : OptimizationConstraints) :
  let status := (solver (build_problem players c)).1 in
  ~ spec.fails_with "InvalidConstraintError" (optimize_squad solver players c)
  /\ (forall e, optimize_squad solver players c = Raised e ->
        (status <> LpStatusOptimal /\ exn_class e = "ValueError")
        \/ (status = LpStatusOptimal /\ exn_class e = "KeyError"))
  /\ (forall f, formation c = Some f -> f ∉ keys FORMATION_CONSTRAINTS ->
        optimize_squad solver players c
        = optimize_squad solver players (with_formation c None))
  /\ (decides solver ->
      forall i, i ∈ truthy (excluded_players c) ->
                i ∈ truthy (required_players c) ->
                i ∈ pid <$> players ->
        spec.fails_with "ValueError" (optimize_squad solver players c)).
Proof.
  intros status. split; [|split; [|split]].
  - intros [msg H]. apply optimize_squad_raises in H as [[_ ?]|[_ ?]]; done.
  - apply optimize_squad_raises.
  - intros f Hf Hout.
    assert (chosen_formation c = None) as Hnone.
    { unfold chosen_formation. rewrite Hf.
      destruct (decide (f = "")); [done|]. by apply getitem_None. }
    unfold optimize_squad, build_problem, _add_squad_constraints.
    rewrite Hnone. reflexivity.
  - intros Hd i Hex Hreq Hin. apply decides_fails; [exact Hd|].
    intros [v Hv]. by eapply conflicting_ids_infeasible.
Qed.

(** The statement at the pool of seven, for the reference solver and
    constraints with an unknown formation and a conflicting id. *)
Lemma constraints_are_not_validated_witness :
  (formation examples.conflicting = Some "9-9-9"
   /\ ("9-9-9" ∉ keys FORMATION_CONSTRAINTS)
   /\ optimize_squad exhaustive.solve examples.pool7 examples.conflicting
      = optimize_squad exhaustive.solve examples.pool7
          (with_formation examples.conflicting None))
  /\ (decides exhaustive.solve
      /\ 1 ∈ truthy (excluded_players examples.conflicting)
      /\ 1 ∈ truthy (required_players examples.conflicting)
      /\ 1 ∈ pid <$> examples.pool7
      /\ spec.fails_with "ValueError"
           (optimize_squad exhaustive.solve examples.pool7
              examples.conflicting)).
Proof.
  assert ("9-9-9" ∉ keys FORMATION_CONSTRAINTS) as Hout.
  { intros Hin. apply list_elem_of_In in Hin. simpl in Hin.
    repeat (destruct Hin as [Hin|Hin]; [discriminate Hin|]). exact Hin. }
  assert (1 ∈ [1]) as Hone by left.
  assert (1 ∈ pid <$> examples.pool7) as Hpool by left.
  pose proof (constraints_are_not_validated exhaustive.solve examples.pool7
                examples.conflicting) as (_ & _ & Hformation & Hconflict).
  split.
  - split; [reflexivity|]. split; [exact Hout|].
    exact (Hformation "9-9-9" eq_refl Hout).
  - split; [exact solve_decides|]. repeat (split; [assumption|]).
    exact (Hconflict solve_decides 1 Hone Hone Hpool).
Defined.

(** C2, as stated, fails: with a starting line-up of seven, below the
    eleven that the specification requires, the call is not rejected; it
    solves the program and returns a squad of seven in formation 3-2-1
    that costs 14. *)
Lemma invalid_constraints_accepted :
  spec.invalid_constraints (examples.seven 100)
  /\ (exists r,
        optimize_squad exhaustive.solve examples.pool7 (examples.seven 100)
        = Returned r
        /\ r_formation r = "3-2-1"
        /\ d_player_id <$> r_starting_xi r = [1; 2; 3; 4; 5; 6; 7]
        /\ r_total_cost r = 14%Q)
  /\ ~ spec.fails_with "InvalidConstraintError"
         (optimize_squad exhaustive.solve examples.pool7 (examples.seven 100)).
Proof.
  split; [right; right; left; simpl; lia|].
  destruct (optimize_squad exhaustive.solve examples.pool7 (examples.seven 100))
    as [r|e] eqn:E; vm_compute in E; [|discriminate E].
  injection E as <-.
  split; [|intros [msg [=]]].
  eexists. split; [reflexivity|]. by vm_compute.
Qed.
